(** * Reddit frustration scraper

    A shallow embedding of [reddit_frustration_scraper.py] and the
    properties of its filtering, selection and aggregation pipeline.

    Conventions of the embedding:
    - Python [int] is [Z]; [str] is [string] (a sequence of 8-bit characters,
      [str.lower] acting on the letters [A]-[Z]); [list] is [list];
      a dict with fixed keys is a record; a key that may be absent is an
      [option] field.
    - The configuration is the record [Config.t]: every key the code reads
      is present and has the type the code uses it at.
    - Whatever lives outside the process (the configuration file, the
      Reddit API, the file system) is a field of [World.t].
    - A call that may raise returns a [result]; code that logs, prints or
      writes files runs in the state-and-exception monad [M]. *)

From Stdlib Require Import ZArith Ascii String List Lia.
From stdpp Require Import base option list strings gmap.

Local Open Scope string_scope.
Local Open Scope list_scope.
Local Open Scope Z_scope.

(** ** Text: [str.lower] and the [in] operator on strings *)

Definition lower_char (c : ascii) : ascii :=
  let n := nat_of_ascii c in
  if ((65 <=? n) && (n <=? 90))%nat then ascii_of_nat (n + 32) else c.

(** [s.lower()], on text whose letters are the ASCII ones. Of [lower] the
    theorems use only that it maps the empty string, and no other string,
    to the empty string. *)
Fixpoint lower (s : string) : string :=
  match s with
  | EmptyString => EmptyString
  | String c s' => String (lower_char c) (lower s')
  end.

(** [s.startswith(p)] *)
Fixpoint startswith (p s : string) : bool :=
  match p, s with
  | EmptyString, _ => true
  | String _ _, EmptyString => false
  | String a p', String b s' => Ascii.eqb a b && startswith p' s'
  end.

(** [k in t] for two strings: [k] occurs in [t] at some offset. *)
Fixpoint str_in (k t : string) : bool :=
  startswith k t ||
  match t with
  | EmptyString => false
  | String _ t' => str_in k t'
  end.

(** [s.replace(old, new)] for a non-empty [old]: occurrences are replaced
    from left to right and do not overlap; [skip] counts the characters of
    the occurrence just replaced that are still to be dropped. *)
Fixpoint replace_from (old new : string) (skip : nat) (s : string) : string :=
  match s with
  | EmptyString => EmptyString
  | String c s' =>
      match skip with
      | S k => replace_from old new k s'
      | O =>
          if startswith old s
          then new +:+ replace_from old new (String.length old - 1) s'
          else String c (replace_from old new 0 s')
      end
  end.

Definition replace (old new s : string) : string := replace_from old new 0 s.

(** [l[:n]]: a negative bound counts from the end of the list. *)
Definition slice_to {A} (l : list A) (n : Z) : list A :=
  if 0 <=? n then take (Z.to_nat n) l
  else take (Z.to_nat (Z.of_nat (length l) + n)) l.

(** ** Exceptions *)

(** Exceptions that the collaborators (file system, [json], [praw]) raise.
    [ResponseException] stands for the class and its subclasses;
    [RequestException] is the request-level failure of [prawcore], which is
    not a [ResponseException]. *)
Inductive error : Set :=
  | FileNotFoundError
  | JSONDecodeError
  | OAuthException
  | ResponseException
  | RequestException
  | OSError
  | KeyboardInterrupt.

(** [isinstance(e, Exception)]: everything but [KeyboardInterrupt]. *)
Definition is_Exception (e : error) : bool :=
  match e with
  | KeyboardInterrupt => false
  | _ => true
  end.

(** What unwinds the stack: an exception, or [sys.exit(code)]. *)
Inductive exn : Set :=
  | Error (e : error)
  | SystemExit (code : Z).

Inductive result (E A : Type) : Type :=
  | Ok (a : A)
  | Raise (e : E).
Arguments Ok {E A} a.
Arguments Raise {E A} e.

(** ** Data model *)

(** An entry of a comment forest; [body] is [None] for an entry without a
    [body] attribute. *)
Module Comment.
Record t : Type := mk {
  id : string;
  body : option string;
  score : Z;
  author : option string
}.
End Comment.

(** A submission as the listing yields it. [comments] is what reading
    [submission.comments] and [replace_more(limit=0)] give: the entries of
    the forest in order, or the error the request raised. *)
Module Submission.
Record t : Type := mk {
  id : string;
  title : string;
  selftext : string;
  score : Z;
  num_comments : Z;
  created_utc : Z;
  over_18 : bool;
  author : option string;
  url : string;
  permalink : string;
  comments : result error (list Comment.t)
}.
End Submission.

(** The dict built for a kept comment. *)
Module CuratedComment.
Record t : Type := mk {
  id : string;
  body : string;
  score : Z;
  author : string
}.
End CuratedComment.

(** The dict [post_data]; the key ['comments'] is present only when
    comments were requested. *)
Module Post.
Record t : Type := mk {
  id : string;
  title : string;
  selftext : string;
  score : Z;
  num_comments : Z;
  created_utc : Z;
  subreddit : string;
  url : string;
  permalink : string;
  author : string;
  comments : option (list CuratedComment.t)
}.
End Post.

(** The configuration file, section by section. *)
Module Config.
Record reddit_api_t : Type := mk_reddit_api {
  client_id : string;
  client_secret : string;
  user_agent : string
}.
Record scraping_t : Type := mk_scraping {
  subreddits : list string;
  keywords : list string;
  post_limit : Z;
  time_filter : string
}.
Record output_t : Type := mk_output {
  format : string;
  filename : string;
  include_comments : bool;
  max_comments : Z
}.
Record filters_t : Type := mk_filters {
  min_score : Z;
  min_comments : Z;
  exclude_nsfw : bool;
  exclude_deleted : bool
}.
Record t : Type := mk {
  reddit_api : reddit_api_t;
  scraping : scraping_t;
  output : output_t;
  filters : filters_t
}.
End Config.

(** ** Keyword matcher and quality filter *)

Section Filtering.
Variable config : Config.t.

Definition _contains_frustration_keywords (text : string) : bool :=
  let keywords := Config.keywords (Config.scraping config) in
  let text_lower := lower text in
  existsb (fun keyword => str_in (lower keyword) text_lower) keywords.

Definition _meets_filter_criteria (submission : Submission.t) : bool :=
  let filters := Config.filters config in
  if Submission.score submission <? Config.min_score filters then false
  else if Submission.num_comments submission <? Config.min_comments filters
  then false
  else if Config.exclude_nsfw filters && Submission.over_18 submission
  then false
  else if Config.exclude_deleted filters
          && bool_decide (Submission.selftext submission = "[deleted]")
  then false
  else true.
End Filtering.

(** ** The world outside the process *)

(** The ranking the listing is requested with: [subreddit.top(t, ...)] or
    [subreddit.hot(...)]. *)
Inductive ranking : Set :=
  | Top (time_filter : string)
  | Hot.

(** A listing is consumed lazily: it yields a submission, ends, or raises
    while the next submission is requested. *)
Inductive listing : Type :=
  | Exhausted
  | Yield (submission : Submission.t) (rest : listing)
  | Fails (e : error).

Inductive file_data : Type :=
  | JsonFile (posts : list Post.t)
  | CsvFile (posts : list Post.t).

Module World.
Record t : Type := mk {
  (** the content of a path: [None] when it does not exist, otherwise
      what [json.load] makes of it *)
  config_file : string -> option (result error Config.t);
  (** [praw.Reddit(...)] followed by [reddit.user.me()]: the exception
      raised, if any *)
  authenticate : Config.reddit_api_t -> option error;
  (** the listing of a subreddit under a ranking and a limit *)
  submissions : string -> ranking -> Z -> listing;
  (** opening a path for writing: the exception raised, if any *)
  open_for_writing : string -> option error
}.
End World.

(** ** Observable state: log records, standard output, files *)

Inductive level : Set := INFO | WARNING | ERROR.

Inductive message : Type :=
  | MsgStarting
  | MsgScraping (subreddit : string)
  | MsgErrorScraping (subreddit : string) (e : error)
  | MsgFound (count : nat) (subreddit : string)
  | MsgSaved (count : nat) (filename : string)
  | MsgNoPosts.

Inductive printed : Type :=
  | OutAuthFailed (e : error)
  | OutComplete
  | OutTotal (count : nat)
  | OutSubreddits (names : list string)
  | OutSavedTo (filename : string)
  | OutInterrupted
  | OutError (e : error).

Module State.
Record t : Type := mk {
  log : list (level * message);
  stdout : list printed;
  files : gmap string file_data
}.
End State.

(** ** The monad of effectful code *)

Definition M (A : Type) : Type := State.t -> result exn A * State.t.

#[global] Instance M_ret : MRet M := fun A a st => (Ok a, st).

#[global] Instance M_bind : MBind M := fun A B f m st =>
  match m st with
  | (Ok a, st') => f a st'
  | (Raise e, st') => (Raise e, st')
  end.

Definition raise {A} (e : exn) : M A := fun st => (Raise e, st).

Definition logger (lvl : level) (msg : message) : M unit :=
  fun st =>
    (Ok tt, State.mk (State.log st ++ [(lvl, msg)]) (State.stdout st)
                     (State.files st)).

Definition print (line : printed) : M unit :=
  fun st =>
    (Ok tt, State.mk (State.log st) (State.stdout st ++ [line])
                     (State.files st)).

(** [with open(path, 'w') as f: ...] writing [data]. *)
Definition write_file (world : World.t) (path : string) (data : file_data)
  : M unit :=
  fun st =>
    match World.open_for_writing world path with
    | Some e => (Raise (Error e), st)
    | None =>
        (Ok tt, State.mk (State.log st) (State.stdout st)
                         (<[path := data]> (State.files st)))
    end.

(** ** The scraper *)

Section Scraper.
Variable world : World.t.

Definition _load_config (config_path : string) : M Config.t :=
  match World.config_file world config_path with
  | None => raise (Error FileNotFoundError)
  | Some (Raise e) => raise (Error e)
  | Some (Ok config) => mret config
  end.

Definition _initialize_reddit (config : Config.t) : M unit :=
  let reddit_config := Config.reddit_api config in
  match World.authenticate world reddit_config with
  | None => mret tt
  | Some OAuthException =>
      print (OutAuthFailed OAuthException);; raise (SystemExit 1)
  | Some e => raise (Error e)
  end.

(** [RedditFrustrationScraper(config_path)]; the object is represented
    by its configuration. *)
Definition __init__ (config_path : string) : M Config.t :=
  config ← _load_config config_path;
  _initialize_reddit config;;
  mret config.

Variable config : Config.t.

Definition resolve_author (author : option string) : string :=
  match author with
  | Some name => name
  | None => "[deleted]"
  end.

Definition comment_data (comment : Comment.t) (body : string)
  : CuratedComment.t :=
  {| CuratedComment.id := Comment.id comment;
     CuratedComment.body := body;
     CuratedComment.score := Comment.score comment;
     CuratedComment.author := resolve_author (Comment.author comment) |}.

Definition _get_top_comments (submission : Submission.t)
  : result error (list CuratedComment.t) :=
  let max_comments := Config.max_comments (Config.output config) in
  match Submission.comments submission with
  | Raise e => Raise e
  | Ok forest =>
      Ok (fold_left
            (fun comments comment =>
               match Comment.body comment with
               | Some body => comments ++ [comment_data comment body]
               | None => comments
               end)
            (slice_to forest max_comments) [])
  end.

Definition post_data (subreddit_name : string) (submission : Submission.t)
    (comments : option (list CuratedComment.t)) : Post.t :=
  {| Post.id := Submission.id submission;
     Post.title := Submission.title submission;
     Post.selftext := Submission.selftext submission;
     Post.score := Submission.score submission;
     Post.num_comments := Submission.num_comments submission;
     Post.created_utc := Submission.created_utc submission;
     Post.subreddit := subreddit_name;
     Post.url := Submission.url submission;
     Post.permalink := "https://reddit.com" +:+ Submission.permalink submission;
     Post.author := resolve_author (Submission.author submission);
     Post.comments := comments |}.

(** The [for submission in submissions] loop of [scrape_subreddit]:
    the value of [posts] when the loop is left, and the exception that
    left it, if any. *)
Fixpoint scrape_loop (subreddit_name : string) (submissions : listing)
    (posts : list Post.t) : list Post.t * option error :=
  match submissions with
  | Exhausted => (posts, None)
  | Fails e => (posts, Some e)
  | Yield submission rest =>
      if _contains_frustration_keywords config (Submission.title submission)
         || _contains_frustration_keywords config
              (Submission.selftext submission)
      then
        if _meets_filter_criteria config submission then
          if Config.include_comments (Config.output config) then
            match _get_top_comments submission with
            | Raise e => (posts, Some e)
            | Ok comments =>
                scrape_loop subreddit_name rest
                  (posts ++ [post_data subreddit_name submission
                               (Some comments)])
            end
          else
            scrape_loop subreddit_name rest
              (posts ++ [post_data subreddit_name submission None])
        else scrape_loop subreddit_name rest posts
      else scrape_loop subreddit_name rest posts
  end.

(** The listing [scrape_subreddit] iterates over, chosen by the time
    filter. *)
Definition ranked_submissions (subreddit_name : string) : listing :=
  let scraping_config := Config.scraping config in
  if bool_decide (Config.time_filter scraping_config = "week") then
    World.submissions world subreddit_name (Top "week")
      (Config.post_limit scraping_config)
  else if bool_decide (Config.time_filter scraping_config = "month") then
    World.submissions world subreddit_name (Top "month")
      (Config.post_limit scraping_config)
  else
    World.submissions world subreddit_name Hot
      (Config.post_limit scraping_config).

Definition scrape_subreddit (subreddit_name : string) : M (list Post.t) :=
  logger INFO (MsgScraping subreddit_name);;
  let submissions := ranked_submissions subreddit_name in
  match scrape_loop subreddit_name submissions [] with
  | (posts, None) => mret posts
  | (posts, Some ResponseException) =>
      logger ERROR (MsgErrorScraping subreddit_name ResponseException);;
      mret posts
  | (_, Some e) => raise (Error e)
  end.

(** The loop of [scrape_all_subreddits] over the remaining subreddits. *)
Fixpoint scrape_all_loop (subreddits : list string)
    (all_posts : list Post.t) : M (list Post.t) :=
  match subreddits with
  | [] => mret all_posts
  | subreddit :: rest =>
      posts ← scrape_subreddit subreddit;
      logger INFO (MsgFound (length posts) subreddit);;
      scrape_all_loop rest (all_posts ++ posts)
  end.

Definition scrape_all_subreddits : M (list Post.t) :=
  let subreddits := Config.subreddits (Config.scraping config) in
  scrape_all_loop subreddits [].

Definition save_data (posts : list Post.t) : M unit :=
  let output_config := Config.output config in
  let filename := Config.filename output_config in
  (if bool_decide (Config.format output_config = "json") then
     write_file world filename (JsonFile posts)
   else if bool_decide (Config.format output_config = "csv") then
     let csv_filename := replace ".json" ".csv" filename in
     write_file world csv_filename (CsvFile posts)
   else mret tt);;
  logger INFO (MsgSaved (length posts) filename).

Definition run : M unit :=
  logger INFO MsgStarting;;
  posts ← scrape_all_subreddits;
  match posts with
  | _ :: _ =>
      save_data posts;;
      print OutComplete;;
      print (OutTotal (length posts));;
      print (OutSubreddits (Config.subreddits (Config.scraping config)));;
      print (OutSavedTo (Config.filename (Config.output config)))
  | [] => logger WARNING MsgNoPosts
  end.
End Scraper.

(** [main()]: the constructor and [run] under the two handlers. *)
Definition main (world : World.t) : M unit :=
  fun st =>
    match (scraper ← __init__ world "config.json"; run world scraper) st with
    | (Ok tt, st') => (Ok tt, st')
    | (Raise (Error KeyboardInterrupt), st') => print OutInterrupted st'
    | (Raise (Error e), st') =>
        (print (OutError e);; raise (SystemExit 1)) st'
    | (Raise (SystemExit code), st') => (Raise (SystemExit code), st')
    end.

(** The exit status of the interpreter after [main()]: 0 when it returns,
    the code of a [SystemExit], 1 for an exception nobody handled. *)
Definition exit_code (outcome : result exn unit) : Z :=
  match outcome with
  | Ok _ => 0
  | Raise (SystemExit code) => code
  | Raise (Error _) => 1
  end.

Definition initial_state : State.t := State.mk [] [] ∅.

(** ** The fixtures of the test suite *)

Module Fixtures.
Definition test_config : Config.t :=
  {| Config.reddit_api :=
       Config.mk_reddit_api "test_client_id" "test_client_secret"
         "test_user_agent";
     Config.scraping :=
       Config.mk_scraping ["test_subreddit"]
         ["frustrat"; "annoying"; "irritat"] 10 "week";
     Config.output := Config.mk_output "json" "test_output.json" false 5;
     Config.filters := Config.mk_filters 1 0 true true |}.

Definition mock_submission1 : Submission.t :=
  Submission.mk "test1" "This is frustrating" "Really annoying situation"
    10 5 1234567890 false (Some "test_user") "https://reddit.com/test1"
    "/r/test/comments/test1" (Ok []).

Definition mock_submission2 : Submission.t :=
  Submission.mk "test2" "Happy post" "Great day"
    5 2 1234567891 false (Some "test_user2") "https://reddit.com/test2"
    "/r/test/comments/test2" (Ok []).

Definition mock_comment1 : Comment.t :=
  Comment.mk "comment1" (Some "First comment") 5 (Some "commenter1").

Definition mock_comment2 : Comment.t :=
  Comment.mk "comment2" (Some "Second comment") 3 (Some "commenter2").

(** The mocked client: authentication succeeds and [top] returns the
    two submissions. *)
Definition mock_world : World.t :=
  {| World.config_file := fun _ => Some (Ok test_config);
     World.authenticate := fun _ => None;
     World.submissions := fun _ rk _ =>
       match rk with
       | Top _ => Yield mock_submission1 (Yield mock_submission2 Exhausted)
       | Hot => Exhausted
       end;
     World.open_for_writing := fun _ => None |}.
End Fixtures.

Import Fixtures.

(** ** Vocabulary of the statements *)

(** [k] occurs in [t] as a contiguous substring. *)
Definition occurs_in (k t : string) : Prop :=
  exists pre post, t = pre +:+ k +:+ post.

(** The dict a comment entry is turned into, if it has a body. *)
Definition curated (comment : Comment.t) : option CuratedComment.t :=
  comment_data comment <$> Comment.body comment.

(** The submissions a listing yields, in order, until it ends or fails. *)
Fixpoint yielded (l : listing) : list Submission.t :=
  match l with
  | Yield submission rest => submission :: yielded rest
  | Exhausted | Fails _ => []
  end.

(** A submission matches a keyword in its title or body and meets the
    filter criteria. *)
Definition accepted (config : Config.t) (submission : Submission.t) : bool :=
  (_contains_frustration_keywords config (Submission.title submission)
   || _contains_frustration_keywords config (Submission.selftext submission))
  && _meets_filter_criteria config submission.

(** [post] is the complete record of [submission]: every field copied or
    resolved, with the comments of [_get_top_comments] exactly when they
    are requested. *)
Definition curated_from (config : Config.t) (subreddit_name : string)
    (submission : Submission.t) (post : Post.t) : Prop :=
  if Config.include_comments (Config.output config) then
    exists comments,
      _get_top_comments config submission = Ok comments
      /\ post = post_data subreddit_name submission (Some comments)
  else post = post_data subreddit_name submission None.

(** The posts a community contributes and the exception, if any, that
    ended its listing. *)
Definition community_posts (world : World.t) (config : Config.t)
    (subreddit : string) : list Post.t :=
  (scrape_loop config subreddit (ranked_submissions world config subreddit)
     []).1.

Definition community_error (world : World.t) (config : Config.t)
    (subreddit : string) : option error :=
  (scrape_loop config subreddit (ranked_submissions world config subreddit)
     []).2.

(** The exceptions [scrape_subreddit] handles. *)
Definition handled (raised : option error) : Prop :=
  raised = None \/ raised = Some ResponseException.

(** [st] after the logger has emitted [records]. *)
Definition with_log (st : State.t) (records : list (level * message))
  : State.t :=
  State.mk (State.log st ++ records) (State.stdout st) (State.files st).

(** The records [scrape_all_subreddits] logs for one community. *)
Definition community_log (world : World.t) (config : Config.t)
    (subreddit : string) : list (level * message) :=
  [(INFO, MsgScraping subreddit)]
  ++ match community_error world config subreddit with
     | Some e => [(ERROR, MsgErrorScraping subreddit e)]
     | None => []
     end
  ++ [(INFO, MsgFound (length (community_posts world config subreddit))
               subreddit)].

(** The per-community counts among log records. *)
Definition found_counts (records : list (level * message)) : list nat :=
  omap (fun r => match r.2 with MsgFound n _ => Some n | _ => None end)
       records.

Definition is_saved (msg : message) : bool :=
  match msg with
  | MsgSaved _ _ => true
  | _ => false
  end.

(** ** Inputs of the witnesses and counterexamples *)

Definition empty_keyword_config : Config.t :=
  {| Config.reddit_api := Config.reddit_api test_config;
     Config.scraping := Config.mk_scraping ["test_subreddit"] [""] 10 "week";
     Config.output := Config.output test_config;
     Config.filters := Config.filters test_config |}.

Definition negative_max_config : Config.t :=
  {| Config.reddit_api := Config.reddit_api test_config;
     Config.scraping := Config.scraping test_config;
     Config.output := Config.mk_output "json" "test_output.json" true (-1);
     Config.filters := Config.filters test_config |}.

Definition commented_submission : Submission.t :=
  Submission.mk "test3" "So annoying" "" 3 2 1234567892 false None
    "https://reddit.com/test3" "/r/test/comments/test3"
    (Ok [mock_comment1; mock_comment2]).

(** At most two comments are requested; the second entry of the forest
    has no body. *)
Definition two_comments_config : Config.t :=
  {| Config.reddit_api := Config.reddit_api test_config;
     Config.scraping := Config.scraping test_config;
     Config.output := Config.mk_output "json" "test_output.json" true 2;
     Config.filters := Config.filters test_config |}.

Definition placeholder_entry : Comment.t :=
  Comment.mk "more1" None 0 None.

Definition placeholder_submission : Submission.t :=
  Submission.mk "test4" "So annoying" "" 3 3 1234567893 false None
    "https://reddit.com/test4" "/r/test/comments/test4"
    (Ok [mock_comment1; placeholder_entry; mock_comment2]).

(** The listing yields one matching submission, then the API answers
    with an error. *)
Definition failing_world : World.t :=
  {| World.config_file := fun _ => Some (Ok test_config);
     World.authenticate := fun _ => None;
     World.submissions := fun _ _ _ =>
       Yield mock_submission1 (Fails ResponseException);
     World.open_for_writing := fun _ => None |}.

(** The listing yields no matching submission. *)
Definition quiet_world : World.t :=
  {| World.config_file := fun _ => Some (Ok test_config);
     World.authenticate := fun _ => None;
     World.submissions := fun _ _ _ => Yield mock_submission2 Exhausted;
     World.open_for_writing := fun _ => None |}.

(** Start-up succeeds, then the network is unreachable. *)
Definition unreachable_world : World.t :=
  {| World.config_file := fun _ => Some (Ok test_config);
     World.authenticate := fun _ => None;
     World.submissions := fun _ _ _ => Fails RequestException;
     World.open_for_writing := fun _ => None |}.

(** ** Vocabulary of the further properties *)

(** [st] after [lines] have been printed. *)
Definition with_stdout (st : State.t) (lines : list printed) : State.t :=
  State.mk (State.log st) (State.stdout st ++ lines) (State.files st).

(** [st] after [data] has been written to [path]. *)
Definition with_file (st : State.t) (path : string) (data : file_data)
  : State.t :=
  State.mk (State.log st) (State.stdout st)
    (<[path := data]> (State.files st)).

(** The four lines [run] prints after saving. *)
Definition summary (config : Config.t) (posts : list Post.t) : list printed :=
  [OutComplete; OutTotal (length posts);
   OutSubreddits (Config.subreddits (Config.scraping config));
   OutSavedTo (Config.filename (Config.output config))].

(** [submission] with another answer to the request for its comments. *)
Definition with_comments (submission : Submission.t)
    (forest : result error (list Comment.t)) : Submission.t :=
  {| Submission.id := Submission.id submission;
     Submission.title := Submission.title submission;
     Submission.selftext := Submission.selftext submission;
     Submission.score := Submission.score submission;
     Submission.num_comments := Submission.num_comments submission;
     Submission.created_utc := Submission.created_utc submission;
     Submission.over_18 := Submission.over_18 submission;
     Submission.author := Submission.author submission;
     Submission.url := Submission.url submission;
     Submission.permalink := Submission.permalink submission;
     Submission.comments := forest |}.

Fixpoint map_listing (f : Submission.t -> Submission.t) (l : listing)
  : listing :=
  match l with
  | Exhausted => Exhausted
  | Yield submission rest => Yield (f submission) (map_listing f rest)
  | Fails e => Fails e
  end.

(** The listing that yields [before] and then goes on as [l]. *)
Fixpoint prepend (before : list Submission.t) (l : listing) : listing :=
  match before with
  | [] => l
  | submission :: before' => Yield submission (prepend before' l)
  end.

(** How the loop of [scrape_subreddit] goes through the listing [l]: it
    goes through [processed] and then either the listing ends
    ([raised = None]), or the request for the next submission raises [e],
    or the next submission is accepted, comments are requested and the
    request for its comments raises [e] ([raised = Some e]). *)
Definition went_through (config : Config.t) (l : listing)
    (processed : list Submission.t) (raised : option error) : Prop :=
  match raised with
  | None => l = prepend processed Exhausted
  | Some e =>
      l = prepend processed (Fails e)
      \/ exists submission rest,
           l = prepend processed (Yield submission rest)
           /\ accepted config submission = true
           /\ Config.include_comments (Config.output config) = true
           /\ _get_top_comments config submission = Raise e
  end.

(** [strict] rejects whatever [filters] rejects. *)
Definition stricter (filters strict : Config.filters_t) : Prop :=
  Config.min_score filters <= Config.min_score strict
  /\ Config.min_comments filters <= Config.min_comments strict
  /\ (Config.exclude_nsfw filters = true -> Config.exclude_nsfw strict = true)
  /\ (Config.exclude_deleted filters = true
      -> Config.exclude_deleted strict = true).

(** The listing leaves the loop of [scrape_subreddit] with an exception
    that [scrape_subreddit] does not handle. *)
Definition unhandled (raised : option error) (e : error) : Prop :=
  raised = Some e /\ e <> ResponseException.

(** The communities named by the error records among log records. *)
Definition error_names (records : list (level * message)) : list string :=
  omap (fun r => match r with
                 | (ERROR, MsgErrorScraping name _) => Some name
                 | _ => None
                 end) records.

(** The listing of the community left the loop with an exception. *)
Definition failed (world : World.t) (config : Config.t) (subreddit : string)
  : bool :=
  match community_error world config subreddit with
  | Some _ => true
  | None => false
  end.

(** ** Inputs of the further witnesses *)

Definition csv_config : Config.t :=
  {| Config.reddit_api := Config.reddit_api test_config;
     Config.scraping := Config.scraping test_config;
     Config.output := Config.mk_output "csv" "test_output.json" false 5;
     Config.filters := Config.filters test_config |}.

Definition xml_config : Config.t :=
  {| Config.reddit_api := Config.reddit_api test_config;
     Config.scraping := Config.scraping test_config;
     Config.output := Config.mk_output "xml" "test_output.json" false 5;
     Config.filters := Config.filters test_config |}.

Definition no_keywords_config : Config.t :=
  {| Config.reddit_api := Config.reddit_api test_config;
     Config.scraping := Config.mk_scraping ["test_subreddit"] [] 10 "week";
     Config.output := Config.output test_config;
     Config.filters := Config.filters test_config |}.

Definition two_subreddits_config : Config.t :=
  {| Config.reddit_api := Config.reddit_api test_config;
     Config.scraping :=
       Config.mk_scraping ["first"; "second"]
         ["frustrat"; "annoying"; "irritat"] 10 "week";
     Config.output := Config.output test_config;
     Config.filters := Config.filters test_config |}.

Definition comments_config : Config.t :=
  {| Config.reddit_api := Config.reddit_api test_config;
     Config.scraping := Config.scraping test_config;
     Config.output := Config.mk_output "json" "test_output.json" true 5;
     Config.filters := Config.filters test_config |}.

(** The output file cannot be opened. *)
Definition readonly_world : World.t :=
  {| World.config_file := fun _ => Some (Ok test_config);
     World.authenticate := fun _ => None;
     World.submissions := World.submissions mock_world;
     World.open_for_writing := fun _ => Some OSError |}.

(** The first community is scraped, the request for the second fails. *)
Definition second_fails_world (e : error) : World.t :=
  {| World.config_file := fun _ => Some (Ok two_subreddits_config);
     World.authenticate := fun _ => None;
     World.submissions := fun name _ _ =>
       if bool_decide (name = "first")
       then Yield mock_submission1 Exhausted
       else Fails e;
     World.open_for_writing := fun _ => None |}.

(** Two communities: the first yields one matching submission out of
    two; the second yields two matching submissions and then the API
    answers with an error. *)
Definition two_communities_world : World.t :=
  {| World.config_file := fun _ => Some (Ok two_subreddits_config);
     World.authenticate := fun _ => None;
     World.submissions := fun name _ _ =>
       if bool_decide (name = "first")
       then Yield mock_submission1 (Yield mock_submission2 Exhausted)
       else Yield commented_submission
              (Yield mock_submission1 (Fails ResponseException));
     World.open_for_writing := fun _ => None |}.

Definition missing_config_world : World.t :=
  {| World.config_file := fun _ => None;
     World.authenticate := fun _ => None;
     World.submissions := fun _ _ _ => Exhausted;
     World.open_for_writing := fun _ => None |}.

Definition rejected_credentials_world : World.t :=
  {| World.config_file := fun _ => Some (Ok test_config);
     World.authenticate := fun _ => Some OAuthException;
     World.submissions := World.submissions mock_world;
     World.open_for_writing := fun _ => None |}.

Example test_contains_frustration_keywords :
  _contains_frustration_keywords test_config "This is so frustrating!" = true
  /\ _contains_frustration_keywords test_config "Very annoying situation" = true
  /\ _contains_frustration_keywords test_config "I'm getting irritated" = true
  /\ _contains_frustration_keywords test_config "This is a happy post" = false
  /\ _contains_frustration_keywords test_config "Great day today" = false.
Proof. repeat split; reflexivity. Qed.

Example test_keywords_ignore_case :
  _contains_frustration_keywords test_config "SO ANNOYING" = true.
Proof. reflexivity. Qed.

Example test_scrape_subreddit :
  (scrape_subreddit mock_world test_config "test_subreddit" initial_state).1
  = Ok [post_data "test_subreddit" mock_submission1 None].
Proof. reflexivity. Qed.

Example test_get_top_comments :
  _get_top_comments test_config
    (Submission.mk "s" "t" "b" 1 2 0 false None "u" "p"
       (Ok [mock_comment1; mock_comment2]))
  = Ok [CuratedComment.mk "comment1" "First comment" 5 "commenter1";
        CuratedComment.mk "comment2" "Second comment" 3 "commenter2"].
Proof. reflexivity. Qed.

Example test_replace :
  replace ".json" ".csv" "test_output.json" = "test_output.csv"
  /\ replace ".json" ".csv" "a.json.json" = "a.csv.csv"
  /\ replace ".json" ".csv" "plain" = "plain".
Proof. repeat split; reflexivity. Qed.

Example test_slice_to :
  slice_to [1; 2; 3] 2 = [1; 2] /\ slice_to [1; 2; 3] 5 = [1; 2; 3]
  /\ slice_to [1; 2; 3] 0 = [] /\ slice_to [1; 2; 3] (-1) = [1; 2]
  /\ slice_to [1; 2; 3] (-7) = [].
Proof. repeat split; reflexivity. Qed.

Example test_main_exit :
  exit_code (main mock_world initial_state).1 = 0
  /\ State.files (main mock_world initial_state).2
     = {[ "test_output.json" :=
            JsonFile [post_data "test_subreddit" mock_submission1 None] ]}.
Proof. split; reflexivity. Qed.

(** ** Text lemmas *)

Lemma startswith_spec p s :
  startswith p s = true <-> exists post, s = p +:+ post.
Proof.
  revert s. induction p as [|a p IH]; intros s; simpl.
  - split; [intros _; by exists s | done].
  - destruct s as [|b s].
    + split; [done | intros [post H]; discriminate H].
    + rewrite andb_true_iff, Ascii.eqb_eq, IH. split.
      * intros [-> [post ->]]. by exists post.
      * intros [post H]. injection H as -> ->. split; [done | by exists post].
Qed.

Lemma str_in_spec k t : str_in k t = true <-> occurs_in k t.
Proof.
  unfold occurs_in. induction t as [|c t IH].
  - simpl. rewrite orb_false_r, startswith_spec. split.
    + intros [post H]. by exists "", post.
    + intros [pre [post H]]. destruct pre; [by exists post | discriminate H].
  - cbn [str_in]. rewrite orb_true_iff, startswith_spec, IH. split.
    + intros [[post H] | [pre [post H]]].
      * by exists "", post.
      * exists (String c pre), post. simpl. by rewrite H.
    + intros [pre [post H]]. destruct pre as [|a pre]; simpl in H.
      * left. by exists post.
      * right. injection H as _ ->. by exists pre, post.
Qed.

Lemma lower_empty s : lower s = "" <-> s = "".
Proof. by destruct s. Qed.

Lemma str_in_empty_text k : str_in k "" = true <-> k = "".
Proof.
  simpl. rewrite orb_false_r. destruct k; simpl; split; done.
Qed.

(** ** Keyword matcher *)

Lemma contains_keywords_iff config text :
  _contains_frustration_keywords config text = true
  <-> exists keyword,
        keyword ∈ Config.keywords (Config.scraping config)
        /\ occurs_in (lower keyword) (lower text).
Proof.
  unfold _contains_frustration_keywords. cbv zeta.
  rewrite existsb_exists. split.
  - intros [k [Hin Hk]]. exists k. split.
    + by apply list_elem_of_In.
    + by apply str_in_spec.
  - intros [k [Hin Hk]]. exists k. split.
    + by apply list_elem_of_In.
    + by apply str_in_spec.
Qed.

(** C3, as stated, fails: a keyword set whose only keyword is the empty
    string is not empty, and the empty keyword occurs in the empty text. *)
Lemma C3_empty_keyword_matches_empty_text :
  Config.keywords (Config.scraping empty_keyword_config) <> []
  /\ _contains_frustration_keywords empty_keyword_config "" = true.
Proof. split; [discriminate | reflexivity]. Qed.

(** C3 (amended): [matches(T, K)] is true if and only if some keyword of
    [K], lower-cased, occurs as a contiguous substring of the lower-cased
    [T]; and for a [K] without the empty keyword it is false on the empty
    text. *)
Theorem C3_keyword_matcher config text :
  (_contains_frustration_keywords config text = true
   <-> exists keyword,
         keyword ∈ Config.keywords (Config.scraping config)
         /\ occurs_in (lower keyword) (lower text))
  /\ ((forall keyword,
         keyword ∈ Config.keywords (Config.scraping config) -> keyword <> "")
      -> _contains_frustration_keywords config "" = false).
Proof.
  split; [apply contains_keywords_iff |].
  intros Hne. apply not_true_is_false. intros H.
  unfold _contains_frustration_keywords in H. cbv zeta in H.
  apply existsb_exists in H as [k [Hin Hk]].
  change (lower "") with "" in Hk.
  apply (proj1 (str_in_empty_text _)) in Hk.
  apply (proj1 (lower_empty _)) in Hk.
  apply (Hne k); [by apply list_elem_of_In | done].
Qed.

Lemma C3_keyword_matcher_witness :
  (forall keyword,
     keyword ∈ Config.keywords (Config.scraping test_config) -> keyword <> "")
  /\ _contains_frustration_keywords test_config "" = false.
Proof.
  assert (H : forall keyword,
             keyword ∈ Config.keywords (Config.scraping test_config)
             -> keyword <> "").
  { intros k Hk. simpl in Hk.
    repeat (apply elem_of_cons in Hk as [-> | Hk]; [discriminate |]).
    by apply elem_of_nil in Hk. }
  split; [exact H |].
  exact (proj2 (C3_keyword_matcher test_config "frustrating") H).
Defined.

(** ** Quality filter *)

Lemma meets_filter_criteria_iff config submission :
  _meets_filter_criteria config submission = true
  <-> Config.min_score (Config.filters config) <= Submission.score submission
      /\ Config.min_comments (Config.filters config)
         <= Submission.num_comments submission
      /\ ~ (Config.exclude_nsfw (Config.filters config) = true
            /\ Submission.over_18 submission = true)
      /\ ~ (Config.exclude_deleted (Config.filters config) = true
            /\ Submission.selftext submission = "[deleted]").
Proof.
  unfold _meets_filter_criteria. cbv zeta.
  destruct (Z.ltb_spec (Submission.score submission)
              (Config.min_score (Config.filters config))) as [Hs | Hs].
  { split; [done | intros [? _]; lia]. }
  destruct (Z.ltb_spec (Submission.num_comments submission)
              (Config.min_comments (Config.filters config))) as [Hc | Hc].
  { split; [done | intros (_ & ? & _); lia]. }
  destruct (Config.exclude_nsfw (Config.filters config)),
    (Submission.over_18 submission),
    (Config.exclude_deleted (Config.filters config)); simpl;
    try case_bool_decide; split; try done; try tauto;
    try (intros _; repeat split; try done; intros [? ?]; done).
Qed.

(** C4: the filter rejects as soon as one of the four criteria is violated,
    whatever the other three, and accepts exactly when all four hold. *)
Theorem C4_filter_is_conjunction config submission :
  let filters := Config.filters config in
  (Submission.score submission < Config.min_score filters
   -> _meets_filter_criteria config submission = false)
  /\ (Submission.num_comments submission < Config.min_comments filters
      -> _meets_filter_criteria config submission = false)
  /\ (Config.exclude_nsfw filters = true
      -> Submission.over_18 submission = true
      -> _meets_filter_criteria config submission = false)
  /\ (Config.exclude_deleted filters = true
      -> Submission.selftext submission = "[deleted]"
      -> _meets_filter_criteria config submission = false)
  /\ (_meets_filter_criteria config submission = true
      <-> Config.min_score filters <= Submission.score submission
          /\ Config.min_comments filters <= Submission.num_comments submission
          /\ ~ (Config.exclude_nsfw filters = true
                /\ Submission.over_18 submission = true)
          /\ ~ (Config.exclude_deleted filters = true
                /\ Submission.selftext submission = "[deleted]")).
Proof.
  intros filters. subst filters.
  pose proof (meets_filter_criteria_iff config submission) as Hiff.
  assert (Hrej : forall P : Prop,
             (_meets_filter_criteria config submission = true -> ~ P)
             -> P -> _meets_filter_criteria config submission = false).
  { intros P HP p. apply not_true_is_false. intros Hm. by apply (HP Hm). }
  split; [| split; [| split; [| split]]].
  - apply Hrej. intros Hm. apply Hiff in Hm. lia.
  - apply Hrej. intros Hm. apply Hiff in Hm. lia.
  - intros Hx Ho. apply not_true_is_false. intros Hm.
    apply Hiff in Hm. tauto.
  - intros Hx Ho. apply not_true_is_false. intros Hm.
    apply Hiff in Hm. tauto.
  - exact Hiff.
Qed.

Lemma C4_filter_is_conjunction_witness :
  Submission.score
    (Submission.mk "t" "x" "Test post" 0 2 0 false None "u" "p" (Ok []))
  < Config.min_score (Config.filters test_config)
  /\ _meets_filter_criteria test_config
       (Submission.mk "t" "x" "Test post" 0 2 0 false None "u" "p" (Ok []))
     = false.
Proof.
  split; [simpl; lia |].
  apply (proj1 (C4_filter_is_conjunction test_config
                  (Submission.mk "t" "x" "Test post" 0 2 0 false None "u" "p"
                     (Ok [])))).
  simpl. lia.
Defined.

Example test_meets_filter_criteria :
  _meets_filter_criteria test_config
    (Submission.mk "t" "x" "Test post" 5 2 0 false None "u" "p" (Ok [])) = true
  /\ _meets_filter_criteria test_config
       (Submission.mk "t" "x" "Test post" 0 2 0 false None "u" "p" (Ok []))
     = false
  /\ _meets_filter_criteria test_config
       (Submission.mk "t" "x" "Test post" 5 2 0 true None "u" "p" (Ok []))
     = false.
Proof. repeat split; reflexivity. Qed.

(** C9: with [exclude_deleted] set, a submission that passes the score,
    comment-count and adult checks is rejected if and only if its body is
    exactly ["[deleted]"]. *)
Theorem C9_deleted_sentinel config submission :
  Config.exclude_deleted (Config.filters config) = true ->
  Config.min_score (Config.filters config) <= Submission.score submission ->
  Config.min_comments (Config.filters config)
  <= Submission.num_comments submission ->
  Config.exclude_nsfw (Config.filters config)
  && Submission.over_18 submission = false ->
  _meets_filter_criteria config submission = false
  <-> Submission.selftext submission = "[deleted]".
Proof.
  intros Hd Hs Hc Hn. unfold _meets_filter_criteria. cbv zeta.
  rewrite Hd, Hn.
  destruct (Z.ltb_spec (Submission.score submission)
              (Config.min_score (Config.filters config))); [lia |].
  destruct (Z.ltb_spec (Submission.num_comments submission)
              (Config.min_comments (Config.filters config))); [lia |].
  simpl. case_bool_decide; split; done.
Qed.

Example removed_body_passes :
  _meets_filter_criteria test_config
    (Submission.mk "t" "x" "[removed]" 5 2 0 false None "u" "p" (Ok [])) = true
  /\ _meets_filter_criteria test_config
       (Submission.mk "t" "x" "see [deleted] above" 5 2 0 false None "u" "p"
          (Ok [])) = true
  /\ _meets_filter_criteria test_config
       (Submission.mk "t" "x" "[deleted]" 5 2 0 false None "u" "p" (Ok []))
     = false.
Proof. repeat split; reflexivity. Qed.

Lemma C9_deleted_sentinel_witness :
  _meets_filter_criteria test_config
    (Submission.mk "t" "x" "[removed]" 5 2 0 false None "u" "p" (Ok []))
  <> false.
Proof.
  intros H.
  apply (C9_deleted_sentinel test_config
           (Submission.mk "t" "x" "[removed]" 5 2 0 false None "u" "p" (Ok [])))
    in H; [discriminate H | reflexivity | simpl; lia | simpl; lia
          | reflexivity].
Defined.

(** ** Comment extractor *)

Lemma omap_cons_unfold {A B} (f : A -> option B) x l :
  omap f (x :: l)
  = match f x with Some y => y :: omap f l | None => omap f l end.
Proof. reflexivity. Qed.

Lemma append_loop_omap (forest : list Comment.t) acc :
  fold_left
    (fun comments comment =>
       match Comment.body comment with
       | Some body => comments ++ [comment_data comment body]
       | None => comments
       end) forest acc
  = acc ++ omap curated forest.
Proof.
  revert acc. induction forest as [|c forest IH]; intros acc.
  - simpl. by rewrite app_nil_r.
  - cbn [fold_left]. rewrite IH, omap_cons_unfold.
    replace (curated c) with (comment_data c <$> Comment.body c)
      by reflexivity.
    destruct (Comment.body c); simpl.
    + by rewrite <- app_assoc.
    + done.
Qed.

(** The loop of [_get_top_comments] keeps, in order, the entries of the
    slice that have a body. *)
Lemma get_top_comments_eq config submission forest :
  Submission.comments submission = Ok forest ->
  _get_top_comments config submission
  = Ok (omap curated
          (slice_to forest (Config.max_comments (Config.output config)))).
Proof.
  intros H. unfold _get_top_comments. cbv zeta. rewrite H.
  by rewrite append_loop_omap.
Qed.

Lemma slice_to_prefix {A} (l : list A) n : slice_to l n `prefix_of` l.
Proof. unfold slice_to. destruct (0 <=? n); apply prefix_take. Qed.

Lemma slice_to_nonneg {A} (l : list A) n :
  0 <= n -> slice_to l n = take (Z.to_nat n) l.
Proof.
  intros H. unfold slice_to. by destruct (Z.leb_spec 0 n); [| lia].
Qed.

Lemma omap_curated_length (l : list Comment.t) :
  (length (omap curated l) <= length l)%nat.
Proof.
  induction l as [|c l IH]; [simpl; lia |].
  rewrite omap_cons_unfold. destruct (curated c); simpl; lia.
Qed.

Lemma omap_curated_length_lt (l : list Comment.t) i entry :
  l !! i = Some entry -> Comment.body entry = None ->
  (length (omap curated l) < length l)%nat.
Proof.
  revert i. induction l as [|c l IH]; intros i Hi Hb; [done |].
  destruct i as [|i]; simpl in Hi.
  - injection Hi as ->. rewrite omap_cons_unfold.
    replace (curated entry) with (comment_data entry <$> Comment.body entry)
      by reflexivity.
    rewrite Hb. simpl. pose proof (omap_curated_length l). lia.
  - specialize (IH i Hi Hb). rewrite omap_cons_unfold.
    destruct (curated c); simpl; lia.
Qed.

Lemma omap_curated_sublist (l : list Comment.t) :
  exists kept,
    kept `sublist_of` l
    /\ Forall2 (fun comment data => curated comment = Some data)
         kept (omap curated l).
Proof.
  induction l as [|c l (kept & Hsub & Hall)].
  - exists []. split; constructor.
  - rewrite omap_cons_unfold. destruct (curated c) as [d|] eqn:Hc.
    + exists (c :: kept). split; [by apply sublist_skip | by constructor].
    + exists kept. split; [by apply sublist_cons | done].
Qed.

(** C5: for every submission whose comments are available and every
    maximum count [max_comments] (a non-negative number), the extractor
    returns at most [max_comments] comments; they are the records of the
    body-bearing entries among the first [max_comments] entries of the
    comment sequence, in the order of the sequence. *)
Theorem C5_comments_bounded_in_order config submission forest :
  let max_comments := Config.max_comments (Config.output config) in
  Submission.comments submission = Ok forest ->
  0 <= max_comments ->
  exists comments kept,
    _get_top_comments config submission = Ok comments
    /\ Z.of_nat (length comments) <= max_comments
    /\ comments = omap curated (take (Z.to_nat max_comments) forest)
    /\ kept `sublist_of` take (Z.to_nat max_comments) forest
    /\ take (Z.to_nat max_comments) forest `prefix_of` forest
    /\ Forall2 (fun comment data => curated comment = Some data)
         kept comments.
Proof.
  intros max_comments Hf Hn.
  destruct (omap_curated_sublist (take (Z.to_nat max_comments) forest))
    as (kept & Hsub & Hall).
  exists (omap curated (take (Z.to_nat max_comments) forest)), kept.
  split.
  { rewrite (get_top_comments_eq _ _ _ Hf). fold max_comments.
    by rewrite slice_to_nonneg. }
  split.
  { pose proof (omap_curated_length (take (Z.to_nat max_comments) forest))
      as H.
    rewrite length_take in H. lia. }
  split; [done |]. split; [done |]. split; [apply prefix_take | done].
Qed.

Lemma C5_comments_bounded_in_order_witness :
  exists comments kept,
    _get_top_comments two_comments_config placeholder_submission = Ok comments
    /\ Z.of_nat (length comments) <= 2
    /\ comments
       = omap curated
           (take (Z.to_nat 2) [mock_comment1; placeholder_entry; mock_comment2])
    /\ kept
       `sublist_of` take (Z.to_nat 2)
                      [mock_comment1; placeholder_entry; mock_comment2]
    /\ take (Z.to_nat 2) [mock_comment1; placeholder_entry; mock_comment2]
       `prefix_of` [mock_comment1; placeholder_entry; mock_comment2]
    /\ Forall2 (fun comment data => curated comment = Some data)
         kept comments.
Proof.
  apply (C5_comments_bounded_in_order two_comments_config
           placeholder_submission
           [mock_comment1; placeholder_entry; mock_comment2]);
    [reflexivity | simpl; lia].
Defined.

Example five_comments_of_seven :
  let c1 := CuratedComment.mk "comment1" "First comment" 5 "commenter1" in
  let c2 := CuratedComment.mk "comment2" "Second comment" 3 "commenter2" in
  _get_top_comments test_config
    (with_comments commented_submission
       (Ok [mock_comment1; mock_comment2; mock_comment1; mock_comment2;
            mock_comment1; mock_comment2; mock_comment1]))
  = Ok [c1; c2; c1; c2; c1].
Proof. reflexivity. Qed.

(** C8: the extractor truncates first and skips afterwards. When one of
    the first [max_comments] entries has no body, the result is the
    records of the body-bearing entries among the first [max_comments]
    ones, it has fewer than [max_comments] comments, and it is the same
    whatever the entries beyond position [max_comments] are. *)
Theorem C8_truncate_then_skip config submission forest i entry :
  let max_comments := Config.max_comments (Config.output config) in
  Submission.comments submission = Ok forest ->
  0 <= i < max_comments ->
  forest !! Z.to_nat i = Some entry ->
  Comment.body entry = None ->
  exists comments,
    _get_top_comments config submission = Ok comments
    /\ comments = omap curated (take (Z.to_nat max_comments) forest)
    /\ Z.of_nat (length comments) < max_comments
    /\ forall submission' forest',
         Submission.comments submission' = Ok forest' ->
         take (Z.to_nat max_comments) forest'
         = take (Z.to_nat max_comments) forest ->
         _get_top_comments config submission' = Ok comments.
Proof.
  intros max_comments Hf Hi Hl Hb.
  exists (omap curated (take (Z.to_nat max_comments) forest)).
  split.
  { rewrite (get_top_comments_eq _ _ _ Hf).
    fold max_comments. by rewrite slice_to_nonneg by lia. }
  split; [done |]. split.
  - assert (Ht : take (Z.to_nat max_comments) forest !! Z.to_nat i
                 = Some entry).
    { rewrite lookup_take_lt by lia. done. }
    pose proof (omap_curated_length_lt _ _ _ Ht Hb) as H.
    rewrite length_take in H. lia.
  - intros s' forest' Hf' Heq.
    rewrite (get_top_comments_eq _ _ _ Hf'). fold max_comments.
    rewrite slice_to_nonneg by lia. by rewrite Heq.
Qed.

Lemma C8_truncate_then_skip_witness :
  exists comments,
    _get_top_comments two_comments_config placeholder_submission = Ok comments
    /\ comments
       = omap curated
           (take (Z.to_nat 2) [mock_comment1; placeholder_entry; mock_comment2])
    /\ Z.of_nat (length comments) < 2
    /\ forall submission' forest',
         Submission.comments submission' = Ok forest' ->
         take (Z.to_nat 2) forest'
         = take (Z.to_nat 2) [mock_comment1; placeholder_entry; mock_comment2] ->
         _get_top_comments two_comments_config submission' = Ok comments.
Proof.
  apply (C8_truncate_then_skip two_comments_config placeholder_submission
           [mock_comment1; placeholder_entry; mock_comment2] 1
           placeholder_entry);
    [reflexivity | simpl; lia | reflexivity | reflexivity].
Defined.

Example later_comment_never_included :
  _get_top_comments two_comments_config placeholder_submission
  = Ok [CuratedComment.mk "comment1" "First comment" 5 "commenter1"].
Proof. reflexivity. Qed.

(** ** The loop over a listing *)

Lemma with_log_nil st : with_log st [] = st.
Proof. destruct st. unfold with_log. simpl. by rewrite app_nil_r. Qed.

Lemma with_log_app st r1 r2 :
  with_log (with_log st r1) r2 = with_log st (r1 ++ r2).
Proof. unfold with_log. simpl. by rewrite app_assoc. Qed.

Lemma logger_eq lvl msg st :
  logger lvl msg st = (Ok tt, with_log st [(lvl, msg)]).
Proof. reflexivity. Qed.

Lemma bind_eq {A B} (m : M A) (f : A -> M B) st :
  (m ≫= f) st
  = match m st with
    | (Ok a, st') => f a st'
    | (Raise e, st') => (Raise e, st')
    end.
Proof. reflexivity. Qed.

Lemma scrape_loop_acc config name l acc :
  scrape_loop config name l acc
  = (acc ++ (scrape_loop config name l []).1,
     (scrape_loop config name l []).2).
Proof.
  revert acc. induction l as [| s rest IH | e]; intros acc.
  - simpl. by rewrite app_nil_r.
  - cbn [scrape_loop].
    destruct (_ || _); [| apply IH].
    destruct (_meets_filter_criteria config s); [| apply IH].
    destruct (Config.include_comments (Config.output config)).
    + destruct (_get_top_comments config s) as [cs | e].
      * rewrite (IH (acc ++ _)), (IH ([] ++ _)). simpl.
        by rewrite <- app_assoc.
      * simpl. by rewrite app_nil_r.
    + rewrite (IH (acc ++ _)), (IH ([] ++ _)). simpl.
      by rewrite <- app_assoc.
  - simpl. by rewrite app_nil_r.
Qed.

(** The posts of a listing are, one for one and in order, the complete
    records of the accepted submissions among those the loop went
    through; it went through all of them unless an exception left it. *)
Lemma scrape_loop_spec config name l :
  exists processed,
    processed `prefix_of` yielded l
    /\ Forall2 (curated_from config name)
         (List.filter (accepted config) processed)
         (scrape_loop config name l []).1
    /\ ((scrape_loop config name l []).2 = None -> processed = yielded l).
Proof.
  induction l as [| s rest (processed & Hpre & Hall & Hend) | e].
  - exists []. simpl. split; [done | split; [constructor | done]].
  - cbn [scrape_loop yielded].
    destruct (_ || _) eqn:Hkw.
    2:{ exists (s :: processed). split; [by apply prefix_cons |].
        cbn [List.filter]. unfold accepted at 1. rewrite Hkw. simpl.
        split; [done | intros H; by rewrite Hend]. }
    destruct (_meets_filter_criteria config s) eqn:Hm.
    2:{ exists (s :: processed). split; [by apply prefix_cons |].
        cbn [List.filter]. unfold accepted at 1. rewrite Hkw, Hm. simpl.
        split; [done | intros H; by rewrite Hend]. }
    assert (Hacc : accepted config s = true)
      by (unfold accepted; by rewrite Hkw, Hm).
    destruct (Config.include_comments (Config.output config)) eqn:Hinc.
    + destruct (_get_top_comments config s) as [cs | e] eqn:Hcs.
      * exists (s :: processed). split; [by apply prefix_cons |].
        rewrite scrape_loop_acc. cbn [fst snd List.filter]. rewrite Hacc.
        split; [| intros H; by rewrite Hend].
        constructor; [| done]. unfold curated_from. rewrite Hinc.
        by exists cs.
      * exists []. simpl.
        split; [apply prefix_nil | split; [constructor | done]].
    + exists (s :: processed). split; [by apply prefix_cons |].
      rewrite scrape_loop_acc. cbn [fst snd List.filter]. rewrite Hacc.
      split; [| intros H; by rewrite Hend].
      constructor; [| done]. unfold curated_from. by rewrite Hinc.
  - exists []. simpl. split; [done | split; [constructor | done]].
Qed.

Lemma accepted_true config s :
  accepted config s = true
  <-> (_contains_frustration_keywords config (Submission.title s) = true
       \/ _contains_frustration_keywords config (Submission.selftext s) = true)
      /\ _meets_filter_criteria config s = true.
Proof. unfold accepted. by rewrite andb_true_iff, orb_true_iff. Qed.

(** [scrape_subreddit], case by case on how the loop is left. *)
Lemma scrape_subreddit_unfold world config name st :
  scrape_subreddit world config name st
  = match community_error world config name with
    | None =>
        (Ok (community_posts world config name),
         with_log st [(INFO, MsgScraping name)])
    | Some ResponseException =>
        (Ok (community_posts world config name),
         with_log st [(INFO, MsgScraping name);
                      (ERROR, MsgErrorScraping name ResponseException)])
    | Some e => (Raise (Error e), with_log st [(INFO, MsgScraping name)])
    end.
Proof.
  unfold scrape_subreddit, community_error, community_posts.
  rewrite bind_eq, logger_eq. cbv zeta.
  destruct (scrape_loop config name (ranked_submissions world config name) [])
    as [posts [e |]]; simpl; [| done].
  destruct e; try done.
  rewrite bind_eq, logger_eq. by rewrite with_log_app.
Qed.

Lemma Forall2_filter_true {A B} (f : A -> bool) (R : A -> B -> Prop) l l' :
  Forall2 R (List.filter f l) l' ->
  Forall2 (fun x y => f x = true /\ R x y) (List.filter f l) l'.
Proof.
  assert (Hf : Forall (fun x => f x = true) (List.filter f l)).
  { apply Forall_forall. intros x Hx.
    apply list_elem_of_In, filter_In in Hx. tauto. }
  revert Hf. generalize (List.filter f l) as k. clear l.
  intros k Hf H. induction H as [| x y k k' Hxy H IH]; constructor.
  - split; [by inversion Hf | done].
  - apply IH. by inversion Hf.
Qed.

Lemma went_through_cons config submission l processed raised :
  went_through config l processed raised ->
  went_through config (Yield submission l) (submission :: processed) raised.
Proof.
  destruct raised as [e |]; simpl.
  - intros [-> | (s & rest & -> & H)]; [by left |].
    right. by exists s, rest.
  - by intros ->.
Qed.

(** How the loop is left decides what it has gone through, and its posts
    are, one for one and in order, the complete records of the accepted
    submissions among those. *)
Lemma scrape_loop_exit config name l :
  exists processed,
    went_through config l processed (scrape_loop config name l []).2
    /\ Forall2 (curated_from config name)
         (List.filter (accepted config) processed)
         (scrape_loop config name l []).1.
Proof.
  induction l as [| s rest (processed & Hwt & Hall) | e].
  - exists []. simpl. split; [done | constructor].
  - cbn [scrape_loop].
    destruct (_ || _) eqn:Hkw.
    2:{ exists (s :: processed). split; [by apply went_through_cons |].
        cbn [List.filter]. unfold accepted at 1. by rewrite Hkw. }
    destruct (_meets_filter_criteria config s) eqn:Hm.
    2:{ exists (s :: processed). split; [by apply went_through_cons |].
        cbn [List.filter]. unfold accepted at 1. by rewrite Hkw, Hm. }
    assert (Hacc : accepted config s = true)
      by (unfold accepted; by rewrite Hkw, Hm).
    destruct (Config.include_comments (Config.output config)) eqn:Hinc.
    + destruct (_get_top_comments config s) as [cs | e] eqn:Hcs.
      * exists (s :: processed). rewrite scrape_loop_acc.
        cbn [fst snd List.filter]. rewrite Hacc.
        split; [by apply went_through_cons |].
        constructor; [| done]. unfold curated_from. rewrite Hinc.
        by exists cs.
      * exists []. cbn [fst snd List.filter]. split; [| constructor].
        right. by exists s, rest.
    + exists (s :: processed). rewrite scrape_loop_acc.
      cbn [fst snd List.filter]. rewrite Hacc.
      split; [by apply went_through_cons |].
      constructor; [| done]. unfold curated_from. by rewrite Hinc.
  - exists []. simpl. split; [by left | constructor].
Qed.

(** ** Selection *)

(** C1: the posts [scrape_subreddit] returns are, one for one and in order,
    the complete records of the submissions that match a keyword in the
    title or the body and meet the filter criteria, among the submissions
    the loop went through; a submission that fails either test has no
    record. *)
Theorem C1_only_accepted_submissions_curated
    world config subreddit_name st posts st' :
  scrape_subreddit world config subreddit_name st = (Ok posts, st') ->
  exists processed kept,
    processed
      `prefix_of` yielded (ranked_submissions world config subreddit_name)
    /\ (community_error world config subreddit_name = None ->
        processed = yielded (ranked_submissions world config subreddit_name))
    /\ kept = List.filter (accepted config) processed
    /\ Forall2
         (fun submission post =>
            (_contains_frustration_keywords config
               (Submission.title submission) = true
             \/ _contains_frustration_keywords config
                  (Submission.selftext submission) = true)
            /\ _meets_filter_criteria config submission = true
            /\ curated_from config subreddit_name submission post)
         kept posts.
Proof.
  intros Hrun. rewrite scrape_subreddit_unfold in Hrun.
  assert (Hposts : posts = community_posts world config subreddit_name).
  { destruct (community_error world config subreddit_name) as [[] |];
      by inversion Hrun. }
  subst posts. clear Hrun.
  destruct (scrape_loop_spec config subreddit_name
              (ranked_submissions world config subreddit_name))
    as (processed & Hpre & Hall & Hend).
  exists processed, (List.filter (accepted config) processed).
  split; [done |]. split; [exact Hend |]. split; [done |].
  apply Forall2_filter_true in Hall.
  eapply Forall2_impl; [exact Hall |].
  intros s p [Hacc Hcur]. apply accepted_true in Hacc. tauto.
Qed.

Lemma C1_only_accepted_submissions_curated_witness :
  exists processed kept,
    processed
      `prefix_of` yielded
                    (ranked_submissions mock_world test_config "test_subreddit")
    /\ (community_error mock_world test_config "test_subreddit" = None ->
        processed
        = yielded (ranked_submissions mock_world test_config "test_subreddit"))
    /\ kept = List.filter (accepted test_config) processed
    /\ Forall2
         (fun submission post =>
            (_contains_frustration_keywords test_config
               (Submission.title submission) = true
             \/ _contains_frustration_keywords test_config
                  (Submission.selftext submission) = true)
            /\ _meets_filter_criteria test_config submission = true
            /\ curated_from test_config "test_subreddit" submission post)
         kept [post_data "test_subreddit" mock_submission1 None].
Proof.
  apply (C1_only_accepted_submissions_curated mock_world test_config
           "test_subreddit" initial_state
           [post_data "test_subreddit" mock_submission1 None]
           (with_log initial_state [(INFO, MsgScraping "test_subreddit")])).
  reflexivity.
Defined.

(** ** Failure isolation *)

Lemma scrape_all_loop_cons world config subreddit rest all_posts st :
  handled (community_error world config subreddit) ->
  scrape_all_loop world config (subreddit :: rest) all_posts st
  = scrape_all_loop world config rest
      (all_posts ++ community_posts world config subreddit)
      (with_log st (community_log world config subreddit)).
Proof.
  intros Hh. cbn [scrape_all_loop].
  rewrite bind_eq, scrape_subreddit_unfold. unfold community_log.
  destruct Hh as [-> | ->]; rewrite bind_eq, logger_eq, with_log_app; done.
Qed.

(** C2, as stated, fails. The listing yields a matching submission and
    then raises a response error: the community contributes that post,
    not zero posts. And a community whose listing raises a request-level
    error, which [scrape_subreddit] does not handle, aborts the run. *)
Lemma C2_posts_before_the_error_are_kept :
  community_error failing_world test_config "test_subreddit"
  = Some ResponseException
  /\ (scrape_all_subreddits failing_world test_config initial_state).1
     = Ok [post_data "test_subreddit" mock_submission1 None]
  /\ (scrape_all_subreddits (second_fails_world RequestException)
        two_subreddits_config initial_state).1
     = Raise (Error RequestException).
Proof. repeat split; reflexivity. Qed.

(** C2 (amended): when fetching or processing a community raises a
    response error, the community contributes exactly the posts curated
    before the error: the listing is made of the submissions [processed]
    followed by the failure (the request for the next submission raises,
    or the next submission is accepted and the request for its comments
    raises), and the posts are, one for one and in order, the complete
    records of the accepted submissions among [processed].
    [scrape_subreddit] logs the error and returns these posts, and the
    loop over the communities goes on with the next one: the failure does
    not abort the run. *)
Theorem C2_response_error_is_isolated world config subreddit st :
  community_error world config subreddit = Some ResponseException ->
  exists processed posts,
    went_through config (ranked_submissions world config subreddit)
      processed (Some ResponseException)
    /\ Forall2 (curated_from config subreddit)
         (List.filter (accepted config) processed) posts
    /\ scrape_subreddit world config subreddit st
       = (Ok posts,
          with_log st
            [(INFO, MsgScraping subreddit);
             (ERROR, MsgErrorScraping subreddit ResponseException)])
    /\ forall rest all_posts,
         scrape_all_loop world config (subreddit :: rest) all_posts st
         = scrape_all_loop world config rest (all_posts ++ posts)
             (with_log st
                [(INFO, MsgScraping subreddit);
                 (ERROR, MsgErrorScraping subreddit ResponseException);
                 (INFO, MsgFound (length posts) subreddit)]).
Proof.
  intros Herr.
  destruct (scrape_loop_exit config subreddit
              (ranked_submissions world config subreddit))
    as (processed & Hwt & Hall).
  fold (community_error world config subreddit) in Hwt.
  fold (community_posts world config subreddit) in Hall.
  rewrite Herr in Hwt.
  exists processed, (community_posts world config subreddit).
  split; [exact Hwt |]. split; [exact Hall |]. split.
  - rewrite scrape_subreddit_unfold. by rewrite Herr.
  - intros rest all_posts.
    rewrite scrape_all_loop_cons by (right; exact Herr).
    unfold community_log. by rewrite Herr.
Qed.

Lemma C2_response_error_is_isolated_witness :
  exists processed posts,
    went_through test_config
      (ranked_submissions failing_world test_config "test_subreddit")
      processed (Some ResponseException)
    /\ Forall2 (curated_from test_config "test_subreddit")
         (List.filter (accepted test_config) processed) posts
    /\ scrape_subreddit failing_world test_config "test_subreddit"
         initial_state
       = (Ok posts,
          with_log initial_state
            [(INFO, MsgScraping "test_subreddit");
             (ERROR, MsgErrorScraping "test_subreddit" ResponseException)])
    /\ forall rest all_posts,
         scrape_all_loop failing_world test_config
           ("test_subreddit" :: rest) all_posts initial_state
         = scrape_all_loop failing_world test_config rest (all_posts ++ posts)
             (with_log initial_state
                [(INFO, MsgScraping "test_subreddit");
                 (ERROR, MsgErrorScraping "test_subreddit" ResponseException);
                 (INFO, MsgFound (length posts) "test_subreddit")]).
Proof.
  apply (C2_response_error_is_isolated failing_world test_config
           "test_subreddit" initial_state).
  reflexivity.
Defined.

Example error_after_two_posts :
  (scrape_subreddit two_communities_world two_subreddits_config "second"
     initial_state).1
  = Ok [post_data "second" commented_submission None;
        post_data "second" mock_submission1 None].
Proof. reflexivity. Qed.

Example comment_error_keeps_the_earlier_post :
  (scrape_subreddit mock_world comments_config "test_subreddit"
     initial_state).1
  = Ok [post_data "test_subreddit" mock_submission1 (Some [])]
  /\ scrape_loop comments_config "test_subreddit"
       (Yield mock_submission1
          (Yield (with_comments commented_submission (Raise ResponseException))
             (Yield mock_submission1 Exhausted))) []
     = ([post_data "test_subreddit" mock_submission1 (Some [])],
        Some ResponseException).
Proof. split; reflexivity. Qed.

(** ** Aggregation *)

Lemma scrape_all_loop_ok world config subreddits all_posts st :
  Forall (fun c => handled (community_error world config c)) subreddits ->
  scrape_all_loop world config subreddits all_posts st
  = (Ok (all_posts ++ concat (map (community_posts world config) subreddits)),
     with_log st (concat (map (community_log world config) subreddits))).
Proof.
  intros H. revert all_posts st.
  induction H as [| c subreddits Hc _ IH]; intros all_posts st.
  - simpl. by rewrite app_nil_r, with_log_nil.
  - rewrite scrape_all_loop_cons by done. rewrite IH.
    cbn [map concat]. by rewrite with_log_app, <- app_assoc.
Qed.

Lemma found_counts_app r1 r2 :
  found_counts (r1 ++ r2) = found_counts r1 ++ found_counts r2.
Proof. apply omap_app. Qed.

Lemma found_counts_community_log world config c :
  found_counts (community_log world config c)
  = [length (community_posts world config c)].
Proof.
  unfold community_log. by destruct (community_error world config c).
Qed.

Lemma found_counts_concat world config subreddits :
  found_counts (concat (map (community_log world config) subreddits))
  = map (fun c => length (community_posts world config c)) subreddits.
Proof.
  induction subreddits as [| c subreddits IH]; [done |].
  cbn [map concat].
  by rewrite found_counts_app, found_counts_community_log, IH.
Qed.

Lemma community_went_through world config c :
  exists processed,
    went_through config (ranked_submissions world config c) processed
      (community_error world config c)
    /\ Forall2 (curated_from config c)
         (List.filter (accepted config) processed)
         (community_posts world config c).
Proof. apply scrape_loop_exit. Qed.

(** C6: when every community's listing ends or fails with a handled
    error, [scrape_all_subreddits] returns the concatenation, in
    configured order, of one list of posts per configured community. The
    list of a community is, one for one and in yield order, the complete
    records of the accepted submissions among those its listing yields
    before it ends or fails. One count is logged per community, in order,
    the length of its list, and the length of the result is the sum of
    these counts. *)
Theorem C6_aggregation_order_and_counts world config st :
  let subreddits := Config.subreddits (Config.scraping config) in
  Forall (fun c => handled (community_error world config c)) subreddits ->
  exists per records,
    scrape_all_subreddits world config st
    = (Ok (concat per), with_log st records)
    /\ Forall2
         (fun c posts =>
            exists processed raised,
              handled raised
              /\ went_through config (ranked_submissions world config c)
                   processed raised
              /\ Forall2 (curated_from config c)
                   (List.filter (accepted config) processed) posts)
         subreddits per
    /\ found_counts records = map length per
    /\ length (concat per) = list_sum (found_counts records).
Proof.
  intros subreddits Hh.
  exists (map (community_posts world config) subreddits),
    (concat (map (community_log world config) subreddits)).
  split; [| split; [| split]].
  - unfold scrape_all_subreddits. cbv zeta. fold subreddits.
    by rewrite scrape_all_loop_ok.
  - clear st. induction Hh as [| c subreddits' Hc _ IH]; [constructor |].
    cbn [map]. constructor; [| exact IH].
    destruct (community_went_through world config c)
      as (processed & Hwt & Hall).
    by exists processed, (community_error world config c).
  - by rewrite found_counts_concat, map_map.
  - by rewrite found_counts_concat, length_concat, map_map.
Qed.

Lemma C6_aggregation_order_and_counts_witness :
  exists per records,
    scrape_all_subreddits two_communities_world two_subreddits_config
      initial_state
    = (Ok (concat per), with_log initial_state records)
    /\ Forall2
         (fun c posts =>
            exists processed raised,
              handled raised
              /\ went_through two_subreddits_config
                   (ranked_submissions two_communities_world
                      two_subreddits_config c)
                   processed raised
              /\ Forall2 (curated_from two_subreddits_config c)
                   (List.filter (accepted two_subreddits_config) processed)
                   posts)
         ["first"; "second"] per
    /\ found_counts records = map length per
    /\ length (concat per) = list_sum (found_counts records).
Proof.
  apply (C6_aggregation_order_and_counts two_communities_world
           two_subreddits_config initial_state).
  constructor; [left; reflexivity |].
  constructor; [right; reflexivity | constructor].
Defined.

Example aggregation_of_two_communities :
  scrape_all_subreddits two_communities_world two_subreddits_config
    initial_state
  = (Ok [post_data "first" mock_submission1 None;
         post_data "second" commented_submission None;
         post_data "second" mock_submission1 None],
     with_log initial_state
       [(INFO, MsgScraping "first"); (INFO, MsgFound 1 "first");
        (INFO, MsgScraping "second");
        (ERROR, MsgErrorScraping "second" ResponseException);
        (INFO, MsgFound 2 "second")]).
Proof. reflexivity. Qed.

(** ** The run and its output *)

Lemma scrape_all_loop_frame world config subreddits all_posts st :
  exists records,
    (scrape_all_loop world config subreddits all_posts st).2
    = with_log st records
    /\ Forall (fun r => is_saved r.2 = false) records.
Proof.
  revert all_posts st.
  induction subreddits as [| c subreddits IH]; intros all_posts st.
  - exists []. simpl. by rewrite with_log_nil.
  - cbn [scrape_all_loop]. rewrite bind_eq, scrape_subreddit_unfold.
    destruct (community_error world config c) as [e |].
    + destruct e;
        try (eexists; split; [reflexivity | by repeat constructor]).
      rewrite bind_eq, logger_eq, with_log_app.
      destruct (IH (all_posts ++ community_posts world config c)
                  (with_log st
                     ([(INFO, MsgScraping c);
                       (ERROR, MsgErrorScraping c ResponseException)]
                      ++ [(INFO,
                           MsgFound (length (community_posts world config c))
                             c)])))
        as (records & -> & Hrec).
      eexists. rewrite with_log_app. split; [reflexivity |].
      apply Forall_app. split; [by repeat constructor | done].
    + rewrite bind_eq, logger_eq, with_log_app.
      destruct (IH (all_posts ++ community_posts world config c)
                  (with_log st
                     ([(INFO, MsgScraping c)]
                      ++ [(INFO,
                           MsgFound (length (community_posts world config c))
                             c)])))
        as (records & -> & Hrec).
      eexists. rewrite with_log_app. split; [reflexivity |].
      apply Forall_app. split; [by repeat constructor | done].
Qed.

Lemma scrape_all_loop_raises world config subreddits all_posts st x :
  (scrape_all_loop world config subreddits all_posts st).1 = Raise x ->
  exists e, x = Error e.
Proof.
  revert all_posts st.
  induction subreddits as [| c subreddits IH]; intros all_posts st.
  - discriminate.
  - cbn [scrape_all_loop]. rewrite bind_eq, scrape_subreddit_unfold.
    destruct (community_error world config c) as [e |].
    + destruct e; try (simpl; intros [= <-]; by eexists).
      rewrite bind_eq, logger_eq. apply IH.
    + rewrite bind_eq, logger_eq. apply IH.
Qed.

(** [run], case by case on the outcome of the scraping. *)
Lemma run_unfold world config st :
  run world config st
  = match scrape_all_subreddits world config
            (with_log st [(INFO, MsgStarting)]) with
    | (Ok [], st1) => (Ok tt, with_log st1 [(WARNING, MsgNoPosts)])
    | (Ok (post :: posts), st1) =>
        (save_data world config (post :: posts);;
         print OutComplete;;
         print (OutTotal (length (post :: posts)));;
         print (OutSubreddits (Config.subreddits (Config.scraping config)));;
         print (OutSavedTo (Config.filename (Config.output config)))) st1
    | (Raise e, st1) => (Raise e, st1)
    end.
Proof.
  unfold run. rewrite bind_eq, logger_eq, bind_eq.
  by destruct (scrape_all_subreddits world config _) as [[[| post posts] | e] st1].
Qed.

Lemma run_raises world config st x :
  (run world config st).1 = Raise x -> exists e, x = Error e.
Proof.
  rewrite run_unfold.
  destruct (scrape_all_subreddits world config _)
    as [[[| post posts] | e] st1] eqn:Hs.
  - discriminate.
  - cbv [save_data write_file mbind M_bind mret M_ret logger print raise].
    repeat case_bool_decide;
      try destruct (World.open_for_writing world _);
      simpl; intros [= <-] || discriminate; by eexists.
  - simpl. intros [= <-].
    apply (scrape_all_loop_raises world config
             (Config.subreddits (Config.scraping config)) []
             (with_log st [(INFO, MsgStarting)])).
    unfold scrape_all_subreddits in Hs. cbv zeta in Hs. by rewrite Hs.
Qed.

(** C10: when no post was curated, [run] only logs: it returns with the
    files and the standard output as they were and no record of a save;
    and whenever a file differs after [run], at least one post had been
    curated. *)
Theorem C10_no_posts_no_write world config st :
  (forall st1,
     scrape_all_subreddits world config (with_log st [(INFO, MsgStarting)])
     = (Ok [], st1) ->
     exists records,
       run world config st = (Ok tt, with_log st records)
       /\ Forall (fun r => is_saved r.2 = false) records
       /\ State.files (run world config st).2 = State.files st)
  /\ (State.files (run world config st).2 <> State.files st ->
      exists post posts st1,
        scrape_all_subreddits world config (with_log st [(INFO, MsgStarting)])
        = (Ok (post :: posts), st1)).
Proof.
  destruct (scrape_all_loop_frame world config
              (Config.subreddits (Config.scraping config)) []
              (with_log st [(INFO, MsgStarting)]))
    as (records & Hst & Hrec).
  fold (scrape_all_subreddits world config) in Hst.
  split.
  - intros st1 Hs. rewrite run_unfold, Hs. rewrite Hs in Hst. simpl in Hst.
    subst st1. exists ([(INFO, MsgStarting)] ++ records
                       ++ [(WARNING, MsgNoPosts)]).
    rewrite !with_log_app. split; [done |]. split; [| done].
    apply Forall_app. split; [by repeat constructor |].
    apply Forall_app. split; [done | by repeat constructor].
  - intros Hfiles. rewrite run_unfold in Hfiles.
    destruct (scrape_all_subreddits world config _)
      as [[[| post posts] | e] st1] eqn:Hs; simpl in Hst; subst st1.
    + by destruct Hfiles.
    + by exists post, posts, (with_log (with_log st [(INFO, MsgStarting)]) records).
    + by destruct Hfiles.
Qed.

Lemma C10_no_posts_no_write_witness :
  exists records,
    run quiet_world test_config initial_state
    = (Ok tt, with_log initial_state records)
    /\ Forall (fun r => is_saved r.2 = false) records
    /\ State.files (run quiet_world test_config initial_state).2
       = State.files initial_state.
Proof.
  apply (proj1 (C10_no_posts_no_write quiet_world test_config initial_state)
           (with_log initial_state
              [(INFO, MsgStarting); (INFO, MsgScraping "test_subreddit");
               (INFO, MsgFound 0 "test_subreddit")])).
  reflexivity.
Defined.

(** ** Exit status *)

Lemma init_ok world config st :
  World.config_file world "config.json" = Some (Ok config) ->
  World.authenticate world (Config.reddit_api config) = None ->
  __init__ world "config.json" st = (Ok config, st).
Proof.
  intros Hc Ha. unfold __init__, _load_config, _initialize_reddit.
  rewrite bind_eq, Hc. simpl. rewrite bind_eq, Ha. done.
Qed.

(** [main] once the scraper is constructed. *)
Lemma main_after_init world config st :
  World.config_file world "config.json" = Some (Ok config) ->
  World.authenticate world (Config.reddit_api config) = None ->
  main world st
  = match run world config st with
    | (Ok tt, st') => (Ok tt, st')
    | (Raise (Error KeyboardInterrupt), st') => print OutInterrupted st'
    | (Raise (Error e), st') =>
        (print (OutError e);; raise (SystemExit 1)) st'
    | (Raise (SystemExit code), st') => (Raise (SystemExit code), st')
    end.
Proof.
  intros Hc Ha. unfold main. by rewrite bind_eq, (init_ok _ _ _ Hc Ha).
Qed.

Lemma main_init_fails world st e :
  (__init__ world "config.json" st).1 = Raise (Error e) ->
  e <> KeyboardInterrupt ->
  exit_code (main world st).1 = 1.
Proof.
  intros Hi He. unfold main. rewrite bind_eq.
  destruct (__init__ world "config.json" st) as [r st'].
  simpl in Hi. subst r. by destruct e.
Qed.

(** C7, as stated, fails: the configuration is read and authentication
    succeeds, then the request for the listing fails, and the exit code
    is 1. *)
Lemma C7_request_error_exits_with_1 :
  __init__ unreachable_world "config.json" initial_state
  = (Ok test_config, initial_state)
  /\ exit_code (main unreachable_world initial_state).1 = 1.
Proof. split; reflexivity. Qed.

(** C7 (amended): the exit code is 1 on a fatal initialization error
    (missing or unreadable configuration file, failed authentication) and
    whenever an exception other than a keyboard interrupt escapes the run;
    it is 0 when the run completes, which includes the run without any
    post, whose last log record is a warning, and when the run is
    interrupted from the keyboard. No other exit code occurs. *)
Theorem C7_exit_codes world st :
  let code := exit_code (main world st).1 in
  (World.config_file world "config.json" = None -> code = 1)
  /\ (forall e,
        World.config_file world "config.json" = Some (Raise e) ->
        e <> KeyboardInterrupt -> code = 1)
  /\ (forall config e,
        World.config_file world "config.json" = Some (Ok config) ->
        World.authenticate world (Config.reddit_api config) = Some e ->
        e <> KeyboardInterrupt -> code = 1)
  /\ (forall config,
        World.config_file world "config.json" = Some (Ok config) ->
        World.authenticate world (Config.reddit_api config) = None ->
        ((run world config st).1 = Ok tt -> code = 0)
        /\ (forall e,
              (run world config st).1 = Raise (Error e) ->
              code = if is_Exception e then 1 else 0)
        /\ (forall st1,
              scrape_all_subreddits world config
                (with_log st [(INFO, MsgStarting)]) = (Ok [], st1) ->
              main world st = (Ok tt, with_log st1 [(WARNING, MsgNoPosts)])
              /\ code = 0))
  /\ (code = 0 \/ code = 1).
Proof.
  intros code. subst code.
  split; [| split; [| split; [| split]]].
  - intros Hc. apply (main_init_fails _ _ FileNotFoundError); [| done].
    unfold __init__, _load_config. by rewrite bind_eq, Hc.
  - intros e Hc He. apply (main_init_fails _ _ e); [| done].
    unfold __init__, _load_config. by rewrite bind_eq, Hc.
  - intros config e Hc Ha He.
    unfold main, __init__, _load_config, _initialize_reddit.
    rewrite !bind_eq, Hc. simpl. rewrite bind_eq, Ha.
    by destruct e.
  - intros config Hc Ha. rewrite (main_after_init _ _ _ Hc Ha).
    split; [| split].
    + destruct (run world config st) as [[[] | x] st']; [done | discriminate].
    + intros e.
      destruct (run world config st) as [[[] | x] st']; [discriminate |].
      simpl. intros [= ->]. by destruct e.
    + intros st1 Hs. rewrite run_unfold, Hs. done.
  - destruct (World.config_file world "config.json") as [[config | e] |] eqn:Hc.
    + destruct (World.authenticate world (Config.reddit_api config))
        as [e |] eqn:Ha.
      * unfold main, __init__, _load_config, _initialize_reddit.
        rewrite !bind_eq, Hc. simpl. rewrite bind_eq, Ha.
        destruct e; simpl; auto.
      * rewrite (main_after_init _ _ _ Hc Ha).
        destruct (run world config st) as [[[] | x] st'] eqn:Hr; [by left |].
        destruct (run_raises world config st x) as [e ->];
          [by rewrite Hr |].
        destruct e; simpl; auto.
    + unfold main, __init__, _load_config. rewrite !bind_eq, Hc.
      destruct e; simpl; auto.
    + unfold main, __init__, _load_config. rewrite !bind_eq, Hc.
      simpl; auto.
Qed.

Lemma C7_exit_codes_witness :
  main quiet_world initial_state
  = (Ok tt,
     with_log
       (with_log initial_state
          [(INFO, MsgStarting); (INFO, MsgScraping "test_subreddit");
           (INFO, MsgFound 0 "test_subreddit")])
       [(WARNING, MsgNoPosts)])
  /\ exit_code (main quiet_world initial_state).1 = 0.
Proof.
  destruct (C7_exit_codes quiet_world initial_state)
    as (_ & _ & _ & Hrun & _).
  destruct (Hrun test_config eq_refl eq_refl) as (_ & _ & Hempty).
  apply Hempty. reflexivity.
Defined.

(** * Further properties *)

(** ** Text *)

Lemma str_app_cons x a b : String x a +:+ b = String x (a +:+ b).
Proof. reflexivity. Qed.

Lemma str_app_assoc a b c : (a +:+ b) +:+ c = a +:+ (b +:+ c).
Proof.
  induction a as [| x a IH]; [done |]. by rewrite !str_app_cons, IH.
Qed.

Lemma str_app_nil_r a : a +:+ "" = a.
Proof. induction a as [| x a IH]; [done |]. by rewrite str_app_cons, IH. Qed.

Lemma str_app_length a b :
  String.length (a +:+ b) = (String.length a + String.length b)%nat.
Proof.
  induction a as [| x a IH]; [done |]. rewrite str_app_cons. simpl.
  by rewrite IH.
Qed.

Lemma occurs_in_empty t : occurs_in "" t.
Proof. by exists "", t. Qed.

(** ** Keyword matcher: further properties *)

(** X2: an empty string among the keywords makes every text match. *)
Theorem empty_keyword_matches_everything config text :
  "" ∈ Config.keywords (Config.scraping config) ->
  _contains_frustration_keywords config text = true.
Proof.
  intros Hin. apply contains_keywords_iff. exists "".
  split; [done | apply occurs_in_empty].
Qed.

Lemma empty_keyword_matches_everything_witness :
  _contains_frustration_keywords empty_keyword_config "Great day today"
  = true.
Proof.
  apply (empty_keyword_matches_everything empty_keyword_config
           "Great day today").
  simpl. apply elem_of_cons. by left.
Defined.

Lemma scrape_loop_no_match config name l acc :
  (forall text, _contains_frustration_keywords config text = false) ->
  (scrape_loop config name l acc).1 = acc.
Proof.
  intros Hno. revert acc. induction l as [| s rest IH | e]; intros acc.
  - done.
  - cbn [scrape_loop]. rewrite !Hno. simpl. apply IH.
  - done.
Qed.

(** X3: with an empty keyword list no text matches, and no community
    contributes a post, whatever its listing yields. *)
Theorem no_keywords_no_posts world config subreddit :
  Config.keywords (Config.scraping config) = [] ->
  (forall text, _contains_frustration_keywords config text = false)
  /\ community_posts world config subreddit = [].
Proof.
  intros Hk.
  assert (Hno : forall text,
             _contains_frustration_keywords config text = false).
  { intros text. unfold _contains_frustration_keywords. by rewrite Hk. }
  split; [exact Hno |].
  unfold community_posts. by rewrite scrape_loop_no_match.
Qed.

Lemma no_keywords_no_posts_witness :
  (forall text, _contains_frustration_keywords no_keywords_config text = false)
  /\ community_posts mock_world no_keywords_config "test_subreddit" = [].
Proof.
  apply (no_keywords_no_posts mock_world no_keywords_config "test_subreddit").
  reflexivity.
Defined.

(** ** Quality filter: further properties *)

(** X4: a stricter filter configuration accepts a subset: whatever passes
    higher thresholds and more exclusions passes the laxer ones. *)
Theorem stricter_filter_accepts_less config strict submission :
  stricter (Config.filters config) (Config.filters strict) ->
  _meets_filter_criteria strict submission = true ->
  _meets_filter_criteria config submission = true.
Proof.
  intros (Hs & Hc & Hn & Hd) Hm.
  apply meets_filter_criteria_iff in Hm as (Hs' & Hc' & Hn' & Hd').
  apply meets_filter_criteria_iff.
  split; [lia |]. split; [lia |]. split; tauto.
Qed.

Lemma stricter_filter_accepts_less_witness :
  _meets_filter_criteria
    {| Config.reddit_api := Config.reddit_api test_config;
       Config.scraping := Config.scraping test_config;
       Config.output := Config.output test_config;
       Config.filters := Config.mk_filters 0 0 false false |}
    mock_submission1 = true.
Proof.
  apply (stricter_filter_accepts_less _ test_config mock_submission1);
    [ | reflexivity].
  unfold stricter. simpl. repeat split; (lia || done).
Defined.

(** ** Comment extractor: further properties *)

Lemma omap_curated_all_bodies (l : list Comment.t) :
  Forall (fun comment => is_Some (Comment.body comment)) l ->
  length (omap curated l) = length l
  /\ map CuratedComment.id (omap curated l) = map Comment.id l.
Proof.
  induction 1 as [| c l [b Hb] _ [IHlen IHid]]; [done |].
  rewrite omap_cons_unfold.
  replace (curated c) with (comment_data c <$> Comment.body c) by reflexivity.
  rewrite Hb. simpl. by rewrite IHlen, IHid.
Qed.

(** X5: when the first [max_comments] entries of the forest all have a
    body, the extractor returns exactly [min(max_comments, len(forest))]
    comments, with the identifiers of these entries in order; in
    particular [max_comments = 0] gives the empty list. *)
Theorem comments_exact_count config submission forest :
  let max_comments := Config.max_comments (Config.output config) in
  Submission.comments submission = Ok forest ->
  0 <= max_comments ->
  Forall (fun comment => is_Some (Comment.body comment))
    (take (Z.to_nat max_comments) forest) ->
  exists comments,
    _get_top_comments config submission = Ok comments
    /\ length comments = Nat.min (Z.to_nat max_comments) (length forest)
    /\ map CuratedComment.id comments
       = map Comment.id (take (Z.to_nat max_comments) forest)
    /\ (max_comments = 0 -> comments = []).
Proof.
  intros max_comments Hf Hn Hall.
  exists (omap curated (take (Z.to_nat max_comments) forest)).
  destruct (omap_curated_all_bodies _ Hall) as [Hlen Hid].
  split.
  { rewrite (get_top_comments_eq _ _ _ Hf). fold max_comments.
    by rewrite slice_to_nonneg. }
  split; [by rewrite Hlen, length_take |].
  split; [done |].
  intros ->. done.
Qed.

Lemma comments_exact_count_witness :
  exists comments,
    _get_top_comments test_config commented_submission = Ok comments
    /\ length comments
       = Nat.min (Z.to_nat 5) (length [mock_comment1; mock_comment2])
    /\ map CuratedComment.id comments
       = map Comment.id (take (Z.to_nat 5) [mock_comment1; mock_comment2])
    /\ (5 = 0 -> comments = []).
Proof.
  apply (comments_exact_count test_config commented_submission
           [mock_comment1; mock_comment2]);
    [reflexivity | simpl; lia | ].
  simpl. repeat constructor; by eexists.
Defined.

Lemma meets_with_comments config submission forest :
  _meets_filter_criteria config (with_comments submission forest)
  = _meets_filter_criteria config submission.
Proof. reflexivity. Qed.

Lemma post_data_with_comments name submission forest comments :
  post_data name (with_comments submission forest) comments
  = post_data name submission comments.
Proof. reflexivity. Qed.

(** X6: when comments are not requested the comment forests are never
    read: whatever the requests for comments would answer, errors
    included, the loop produces the same posts and leaves in the same way,
    and no post carries a comment list. *)
Theorem comments_not_requested_not_read config name answer l posts :
  Config.include_comments (Config.output config) = false ->
  scrape_loop config name
    (map_listing (fun s => with_comments s (answer s)) l) posts
  = scrape_loop config name l posts
  /\ Forall (fun post => Post.comments post = None)
       (scrape_loop config name l []).1.
Proof.
  intros Hinc. split.
  - revert posts. induction l as [| s rest IH | e]; intros posts; [done | | done].
    cbn [scrape_loop map_listing].
    rewrite meets_with_comments, post_data_with_comments, Hinc.
    cbn [with_comments Submission.title Submission.selftext].
    destruct (_ || _); [| apply IH].
    destruct (_meets_filter_criteria config s); apply IH.
  - destruct (scrape_loop_spec config name l) as (processed & _ & Hall & _).
    revert Hall. generalize (List.filter (accepted config) processed).
    generalize (scrape_loop config name l []).1.
    intros out kept Hall. induction Hall as [| s p kept out Hsp _ IH];
      constructor; [| done].
    unfold curated_from in Hsp. rewrite Hinc in Hsp. by subst p.
Qed.

Lemma comments_not_requested_not_read_witness :
  scrape_loop test_config "test_subreddit"
    (map_listing (fun s => with_comments s (Raise ResponseException))
       (Yield mock_submission1 (Yield mock_submission2 Exhausted))) []
  = scrape_loop test_config "test_subreddit"
      (Yield mock_submission1 (Yield mock_submission2 Exhausted)) []
  /\ Forall (fun post => Post.comments post = None)
       (scrape_loop test_config "test_subreddit"
          (Yield mock_submission1 (Yield mock_submission2 Exhausted)) []).1.
Proof.
  apply (comments_not_requested_not_read test_config "test_subreddit"
           (fun _ => Raise ResponseException)).
  reflexivity.
Defined.

Lemma scrape_loop_prepend config name before l posts :
  scrape_loop config name (prepend before l) posts
  = match scrape_loop config name (prepend before Exhausted) posts with
    | (posts', None) => scrape_loop config name l posts'
    | left_early => left_early
    end.
Proof.
  revert posts. induction before as [| s before IH]; intros posts; [done |].
  cbn [prepend scrape_loop].
  destruct (_ || _); [| apply IH].
  destruct (_meets_filter_criteria config s); [| apply IH].
  destruct (Config.include_comments (Config.output config)); [| apply IH].
  destruct (_get_top_comments config s); [apply IH | done].
Qed.

(** X7: when comments are requested and the request for the comments of
    an accepted submission raises, the loop is left at once: the posts
    are those of the submissions before it, the submission itself gets no
    record, and the rest of the listing is never examined. *)
Theorem comment_error_ends_the_listing config name before submission rest e :
  Config.include_comments (Config.output config) = true ->
  accepted config submission = true ->
  Submission.comments submission = Raise e ->
  (scrape_loop config name (prepend before Exhausted) []).2 = None ->
  scrape_loop config name (prepend before (Yield submission rest)) []
  = ((scrape_loop config name (prepend before Exhausted) []).1, Some e).
Proof.
  intros Hinc Hacc Hc Hbefore. rewrite scrape_loop_prepend.
  destruct (scrape_loop config name (prepend before Exhausted) [])
    as [posts raised].
  simpl in Hbefore. subst raised. cbn [scrape_loop fst].
  apply accepted_true in Hacc as [Hkw Hm].
  apply orb_true_iff in Hkw. rewrite Hkw, Hm, Hinc.
  unfold _get_top_comments. by rewrite Hc.
Qed.

Lemma comment_error_ends_the_listing_witness :
  scrape_loop comments_config "test_subreddit"
    (prepend [mock_submission1]
       (Yield (with_comments commented_submission (Raise ResponseException))
          (Yield mock_submission1 Exhausted))) []
  = ((scrape_loop comments_config "test_subreddit"
        (prepend [mock_submission1] Exhausted) []).1,
     Some ResponseException).
Proof.
  apply (comment_error_ends_the_listing comments_config "test_subreddit"
           [mock_submission1]
           (with_comments commented_submission (Raise ResponseException))
           (Yield mock_submission1 Exhausted) ResponseException);
    reflexivity.
Defined.

(** ** Aggregation: further properties *)

Lemma Forall2_elem_r {A B} (R : A -> B -> Prop) l k y :
  Forall2 R l k -> y ∈ k -> exists x, x ∈ l /\ R x y.
Proof.
  induction 1 as [| x y' l k Hxy _ IH]; intros Hy.
  - by apply elem_of_nil in Hy.
  - apply elem_of_cons in Hy as [-> | Hy].
    + exists x. split; [apply elem_of_cons; by left | done].
    + destruct (IH Hy) as (x' & Hx' & HR).
      exists x'. split; [apply elem_of_cons; by right | done].
Qed.

Lemma scrape_all_loop_posts world config subreddits all_posts st all :
  (scrape_all_loop world config subreddits all_posts st).1 = Ok all ->
  all = all_posts ++ concat (map (community_posts world config) subreddits).
Proof.
  revert all_posts st.
  induction subreddits as [| c subreddits IH]; intros all_posts st.
  - simpl. intros [= <-]. by rewrite app_nil_r.
  - cbn [scrape_all_loop map concat].
    rewrite bind_eq, scrape_subreddit_unfold.
    destruct (community_error world config c) as [e |].
    + destruct e; try discriminate.
      rewrite bind_eq, logger_eq. intros H. apply IH in H.
      by rewrite H, app_assoc.
    + rewrite bind_eq, logger_eq. intros H. apply IH in H.
      by rewrite H, app_assoc.
Qed.

Lemma community_post_source world config c post :
  post ∈ community_posts world config c ->
  exists submission,
    submission ∈ yielded (ranked_submissions world config c)
    /\ accepted config submission = true
    /\ curated_from config c submission post.
Proof.
  intros Hp.
  destruct (scrape_loop_spec config c (ranked_submissions world config c))
    as (processed & [k Hk] & Hall & _).
  apply Forall2_filter_true in Hall.
  destruct (Forall2_elem_r _ _ _ _ Hall Hp) as (s & Hs & Hacc & Hcur).
  exists s. split; [| done].
  apply list_elem_of_In, filter_In in Hs as [Hs _].
  rewrite Hk. apply elem_of_app. left. by apply list_elem_of_In.
Qed.

(** X8: every post of the aggregated output is the record of an accepted
    submission yielded by the listing of a configured community: it
    carries that community's name and the submission's identifier, its
    permalink starts with the site origin, and it has a comment list
    exactly when comments are requested. *)
Theorem every_post_has_a_source world config st all st' :
  scrape_all_subreddits world config st = (Ok all, st') ->
  Forall
    (fun post =>
       exists c submission,
         c ∈ Config.subreddits (Config.scraping config)
         /\ submission ∈ yielded (ranked_submissions world config c)
         /\ accepted config submission = true
         /\ Post.subreddit post = c
         /\ Post.id post = Submission.id submission
         /\ startswith "https://reddit.com" (Post.permalink post) = true
         /\ (is_Some (Post.comments post)
             <-> Config.include_comments (Config.output config) = true))
    all.
Proof.
  intros Hrun. apply Forall_forall. intros post Hpost.
  assert (Hall : all
                 = concat (map (community_posts world config)
                             (Config.subreddits (Config.scraping config)))).
  { apply (scrape_all_loop_posts world config _ [] st).
    unfold scrape_all_subreddits in Hrun. cbv zeta in Hrun.
    by rewrite Hrun. }
  subst all. apply list_elem_of_In, in_concat in Hpost as (posts & Hin & Hp).
  apply in_map_iff in Hin as (c & <- & Hc).
  apply list_elem_of_In in Hp, Hc.
  destruct (community_post_source _ _ _ _ Hp) as (s & Hs & Hacc & Hcur).
  exists c, s. split; [done |]. split; [done |]. split; [done |].
  unfold curated_from in Hcur.
  destruct (Config.include_comments (Config.output config)).
  - destruct Hcur as (cs & _ & ->). simpl.
    repeat split; try done; try by eexists.
  - subst post. simpl. repeat split; try done; try by intros [? ?].
Qed.

Lemma every_post_has_a_source_witness :
  Forall
    (fun post =>
       exists c submission,
         c ∈ Config.subreddits (Config.scraping test_config)
         /\ submission ∈ yielded (ranked_submissions mock_world test_config c)
         /\ accepted test_config submission = true
         /\ Post.subreddit post = c
         /\ Post.id post = Submission.id submission
         /\ startswith "https://reddit.com" (Post.permalink post) = true
         /\ (is_Some (Post.comments post)
             <-> Config.include_comments (Config.output test_config) = true))
    [post_data "test_subreddit" mock_submission1 None].
Proof.
  apply (every_post_has_a_source mock_world test_config initial_state
           [post_data "test_subreddit" mock_submission1 None]
           (with_log initial_state
              [(INFO, MsgScraping "test_subreddit");
               (INFO, MsgFound 1 "test_subreddit")])).
  reflexivity.
Defined.

(** X9: a community never contributes more posts than its listing
    yields submissions. *)
Theorem posts_bounded_by_listing world config subreddit :
  (length (community_posts world config subreddit)
   <= length (yielded (ranked_submissions world config subreddit)))%nat.
Proof.
  destruct (scrape_loop_spec config subreddit
              (ranked_submissions world config subreddit))
    as (processed & [k Hk] & Hall & _).
  apply Forall2_length in Hall. unfold community_posts. rewrite <- Hall, Hk.
  rewrite length_app.
  pose proof (filter_length_le (accepted config) processed). lia.
Qed.

Lemma scrape_all_loop_abort world config before c after all_posts st e :
  Forall (fun c => handled (community_error world config c)) before ->
  unhandled (community_error world config c) e ->
  scrape_all_loop world config (before ++ c :: after) all_posts st
  = (Raise (Error e),
     with_log st
       (concat (map (community_log world config) before)
        ++ [(INFO, MsgScraping c)])).
Proof.
  intros Hb [Hc He]. revert all_posts st.
  induction Hb as [| b before Hh _ IH]; intros all_posts st.
  - cbn [app scrape_all_loop map concat].
    rewrite bind_eq, scrape_subreddit_unfold, Hc. by destruct e.
  - cbn [app map concat]. rewrite scrape_all_loop_cons by done.
    by rewrite IH, with_log_app, <- app_assoc.
Qed.

(** ** Saving: further properties *)

Lemma print_eq line st : print line st = (Ok tt, with_stdout st [line]).
Proof. reflexivity. Qed.

Lemma with_stdout_app st l1 l2 :
  with_stdout (with_stdout st l1) l2 = with_stdout st (l1 ++ l2).
Proof. unfold with_stdout. simpl. by rewrite app_assoc. Qed.

(** [save_data], case by case on the format and on opening the file. *)
Lemma save_data_unfold world config posts st :
  save_data world config posts st
  = let filename := Config.filename (Config.output config) in
    let saved := [(INFO, MsgSaved (length posts) filename)] in
    if bool_decide (Config.format (Config.output config) = "json") then
      match World.open_for_writing world filename with
      | Some e => (Raise (Error e), st)
      | None => (Ok tt, with_log (with_file st filename (JsonFile posts)) saved)
      end
    else if bool_decide (Config.format (Config.output config) = "csv") then
      match World.open_for_writing world (replace ".json" ".csv" filename) with
      | Some e => (Raise (Error e), st)
      | None =>
          (Ok tt,
           with_log
             (with_file st (replace ".json" ".csv" filename) (CsvFile posts))
             saved)
      end
    else (Ok tt, with_log st saved).
Proof.
  unfold save_data, write_file. cbv zeta. rewrite bind_eq.
  repeat case_bool_decide; try done;
    by destruct (World.open_for_writing world _).
Qed.

(** [run] once at least one post has been curated. *)
Lemma run_with_posts world config st post posts st1 :
  scrape_all_subreddits world config (with_log st [(INFO, MsgStarting)])
  = (Ok (post :: posts), st1) ->
  run world config st
  = match save_data world config (post :: posts) st1 with
    | (Ok _, st2) => (Ok tt, with_stdout st2 (summary config (post :: posts)))
    | (Raise e, st2) => (Raise e, st2)
    end.
Proof.
  intros Hs. rewrite run_unfold, Hs, bind_eq.
  destruct (save_data world config (post :: posts) st1) as [[[] | e] st2];
    [| done].
  repeat (rewrite bind_eq, print_eq; cbv iota beta).
  rewrite print_eq. by rewrite !with_stdout_app.
Qed.

Lemma scrape_all_subreddits_ok world config st :
  Forall (fun c => handled (community_error world config c))
    (Config.subreddits (Config.scraping config)) ->
  scrape_all_subreddits world config st
  = (Ok (concat (map (community_posts world config)
                   (Config.subreddits (Config.scraping config)))),
     with_log st
       (concat (map (community_log world config)
                  (Config.subreddits (Config.scraping config))))).
Proof.
  intros H. unfold scrape_all_subreddits. cbv zeta.
  by rewrite scrape_all_loop_ok.
Qed.

Lemma replace_from_absent old new s :
  str_in old s = false -> replace_from old new 0 s = s.
Proof.
  induction s as [| c s IH]; [done |].
  cbn [str_in replace_from]. intros H.
  apply orb_false_iff in H as [-> H]. by rewrite IH.
Qed.

Lemma startswith_length old s :
  startswith old s = true -> (String.length old <= String.length s)%nat.
Proof.
  intros H. apply startswith_spec in H as [post ->].
  rewrite str_app_length. lia.
Qed.

Lemma replace_from_length old new s k :
  (String.length new <= String.length old)%nat ->
  (String.length (replace_from old new k s) <= String.length s - k)%nat.
Proof.
  intros Hlen. revert k. induction s as [| c s IH]; intros k; [simpl; lia |].
  cbn [replace_from]. destruct k as [| k].
  - destruct (startswith old (String c s)) eqn:Hst.
    + apply startswith_length in Hst. rewrite str_app_length.
      specialize (IH (String.length old - 1)%nat). simpl in *. lia.
    + specialize (IH 0%nat). simpl in *. lia.
  - specialize (IH k). simpl. lia.
Qed.

Lemma replace_shrinks old new s :
  (String.length new < String.length old)%nat ->
  str_in old s = true ->
  (String.length (replace old new s) < String.length s)%nat.
Proof.
  intros Hlen. unfold replace. induction s as [| c s IH].
  - simpl. rewrite orb_false_r. destruct old; [simpl in Hlen; lia | done].
  - cbn [str_in replace_from]. intros H.
    destruct (startswith old (String c s)) eqn:Hst.
    + apply startswith_length in Hst. rewrite str_app_length.
      pose proof (replace_from_length old new s (String.length old - 1)) as Hr.
      simpl in *. lia.
    + simpl in H. specialize (IH H). simpl. lia.
Qed.

Lemma replace_json_suffix base :
  str_in "." base = false ->
  replace ".json" ".csv" (base +:+ ".json") = base +:+ ".csv".
Proof.
  unfold replace. induction base as [| c base IH]; [done |].
  cbn [str_in]. intros H. apply orb_false_iff in H as [Hc H].
  rewrite !str_app_cons. cbn [replace_from].
  assert (Hst : startswith ".json" (String c (base +:+ ".json")) = false).
  { cbn [startswith] in Hc |- *. destruct (Ascii.eqb "." c); [| done].
    simpl in Hc. discriminate Hc. }
  by rewrite Hst, IH.
Qed.

Ltac start_run world config st Hh :=
  let Hs := fresh "Hs" in
  let aggregated := fresh "aggregated" in
  let Haggregated := fresh "Haggregated" in
  pose proof (scrape_all_subreddits_ok world config
                (with_log st [(INFO, MsgStarting)]) Hh) as Hs;
  remember (concat (map (community_posts world config)
                      (Config.subreddits (Config.scraping config))))
    as aggregated eqn:Haggregated;
  destruct aggregated as [| post posts]; [done |];
  rewrite (run_with_posts _ _ _ _ _ _ Hs), save_data_unfold; cbv zeta.

(** X10: a run that curates at least one post, with the format ["json"]
    and a file that can be opened, returns normally; afterwards the file
    holds exactly the aggregated posts, no other file has changed, the
    four summary lines are printed, and the log ends with the record of
    the save. *)
Theorem json_run_writes_the_aggregated_posts world config st :
  let subreddits := Config.subreddits (Config.scraping config) in
  let filename := Config.filename (Config.output config) in
  let all := concat (map (community_posts world config) subreddits) in
  World.config_file world "config.json" = Some (Ok config) ->
  World.authenticate world (Config.reddit_api config) = None ->
  Forall (fun c => handled (community_error world config c)) subreddits ->
  all <> [] ->
  Config.format (Config.output config) = "json" ->
  World.open_for_writing world filename = None ->
  exists final,
    main world st = (Ok tt, final)
    /\ State.files final = <[filename := JsonFile all]> (State.files st)
    /\ State.files final !! filename = Some (JsonFile all)
    /\ State.stdout final = State.stdout st ++ summary config all
    /\ State.log final
       = State.log st
         ++ [(INFO, MsgStarting)]
         ++ concat (map (community_log world config) subreddits)
         ++ [(INFO, MsgSaved (length all) filename)].
Proof.
  intros subreddits filename all Hc Ha Hh Hne Hfmt Hopen.
  subst subreddits filename all.
  rewrite (main_after_init _ _ _ Hc Ha).
  start_run world config st Hh.
  rewrite bool_decide_true by done. rewrite Hopen.
  eexists. split; [reflexivity |]. simpl.
  split; [done |]. split; [apply lookup_insert_eq |]. split; [done |].
  by rewrite <- !app_assoc.
Qed.

Lemma json_run_writes_the_aggregated_posts_witness :
  exists final,
    main mock_world initial_state = (Ok tt, final)
    /\ State.files final
       = <["test_output.json" :=
             JsonFile (concat (map (community_posts mock_world test_config)
                                 ["test_subreddit"]))]>
           (State.files initial_state)
    /\ State.files final !! "test_output.json"
       = Some (JsonFile (concat (map (community_posts mock_world test_config)
                                   ["test_subreddit"])))
    /\ State.stdout final
       = State.stdout initial_state
         ++ summary test_config
              (concat (map (community_posts mock_world test_config)
                         ["test_subreddit"]))
    /\ State.log final
       = State.log initial_state
         ++ [(INFO, MsgStarting)]
         ++ concat (map (community_log mock_world test_config)
                      ["test_subreddit"])
         ++ [(INFO,
              MsgSaved
                (length (concat (map (community_posts mock_world test_config)
                                   ["test_subreddit"])))
                "test_output.json")].
Proof.
  apply (json_run_writes_the_aggregated_posts mock_world test_config
           initial_state);
    [reflexivity | reflexivity | | discriminate | reflexivity | reflexivity].
  constructor; [left; reflexivity | constructor].
Defined.

(** X11: with the format ["csv"] the posts are written to the file name
    with every [".json"] replaced by [".csv"], while the log record and
    the summary line name the configured file name. When the configured
    name contains [".json"] the file of that name is left as it was; for
    a name [base.json] whose base has no dot the file written is
    [base.csv]; a name without [".json"] is itself the file written. *)
Theorem csv_run_writes_to_the_renamed_file world config st :
  let subreddits := Config.subreddits (Config.scraping config) in
  let filename := Config.filename (Config.output config) in
  let csv_filename := replace ".json" ".csv" filename in
  let all := concat (map (community_posts world config) subreddits) in
  Forall (fun c => handled (community_error world config c)) subreddits ->
  all <> [] ->
  Config.format (Config.output config) = "csv" ->
  World.open_for_writing world csv_filename = None ->
  exists final,
    run world config st = (Ok tt, final)
    /\ State.files final = <[csv_filename := CsvFile all]> (State.files st)
    /\ State.stdout final = State.stdout st ++ summary config all
    /\ last (State.log final) = Some (INFO, MsgSaved (length all) filename)
    /\ (occurs_in ".json" filename ->
        csv_filename <> filename
        /\ State.files final !! filename = State.files st !! filename)
    /\ (forall base,
          str_in "." base = false -> filename = base +:+ ".json" ->
          csv_filename = base +:+ ".csv")
    /\ (~ occurs_in ".json" filename -> csv_filename = filename).
Proof.
  intros subreddits filename csv_filename all Hh Hne Hfmt Hopen.
  subst subreddits all.
  start_run world config st Hh.
  rewrite bool_decide_false by (rewrite Hfmt; discriminate).
  rewrite bool_decide_true by done.
  fold filename. fold csv_filename. rewrite Hopen.
  eexists. split; [reflexivity |]. simpl.
  split; [done |]. split; [done |].
  split; [by rewrite last_snoc |].
  assert (Hdiff : occurs_in ".json" filename -> csv_filename <> filename).
  { intros Hocc Heq. apply str_in_spec in Hocc.
    pose proof (replace_shrinks ".json" ".csv" filename) as Hlt.
    fold csv_filename in Hlt. rewrite Heq in Hlt.
    simpl in Hlt. specialize (Hlt ltac:(lia) Hocc). lia. }
  split; [| split].
  - intros Hocc. split; [by apply Hdiff |].
    apply lookup_insert_ne. by apply Hdiff.
  - intros base Hbase Heq. subst csv_filename. rewrite Heq.
    by apply replace_json_suffix.
  - intros Hocc. apply replace_from_absent.
    apply not_true_is_false. intros H. by apply Hocc, str_in_spec.
Qed.

Lemma csv_run_writes_to_the_renamed_file_witness :
  exists final,
    run mock_world csv_config initial_state = (Ok tt, final)
    /\ State.files final !! "test_output.csv"
       = Some (CsvFile [post_data "test_subreddit" mock_submission1 None])
    /\ State.files final !! "test_output.json"
       = State.files initial_state !! "test_output.json".
Proof.
  destruct (csv_run_writes_to_the_renamed_file mock_world csv_config
              initial_state)
    as (final & Hrun & Hfiles & _ & _ & Hjson & _);
    [constructor; [left; reflexivity | constructor]
    | discriminate | reflexivity | reflexivity |].
  exists final. split; [exact Hrun |]. split.
  - rewrite Hfiles. apply lookup_insert_eq.
  - destruct Hjson as [_ H]; [by exists "test_output", "" | exact H].
Defined.

(** X12: with a format that is neither ["json"] nor ["csv"] nothing is
    written, and yet the run returns normally, logs the save and prints
    the summary naming the file. *)
Theorem unknown_format_writes_nothing world config st :
  let subreddits := Config.subreddits (Config.scraping config) in
  let filename := Config.filename (Config.output config) in
  let all := concat (map (community_posts world config) subreddits) in
  Forall (fun c => handled (community_error world config c)) subreddits ->
  all <> [] ->
  Config.format (Config.output config) <> "json" ->
  Config.format (Config.output config) <> "csv" ->
  exists final,
    run world config st = (Ok tt, final)
    /\ State.files final = State.files st
    /\ State.stdout final = State.stdout st ++ summary config all
    /\ last (State.log final) = Some (INFO, MsgSaved (length all) filename).
Proof.
  intros subreddits filename all Hh Hne Hj Hc.
  subst subreddits filename all.
  start_run world config st Hh.
  rewrite !bool_decide_false by done.
  eexists. split; [reflexivity |]. simpl.
  split; [done |]. split; [done |]. by rewrite last_snoc.
Qed.

Lemma unknown_format_writes_nothing_witness :
  exists final,
    run mock_world xml_config initial_state = (Ok tt, final)
    /\ State.files final = State.files initial_state
    /\ State.stdout final
       = State.stdout initial_state
         ++ summary xml_config
              (concat (map (community_posts mock_world xml_config)
                         ["test_subreddit"]))
    /\ last (State.log final)
       = Some (INFO,
               MsgSaved
                 (length (concat (map (community_posts mock_world xml_config)
                                    ["test_subreddit"])))
                 "test_output.json").
Proof.
  apply (unknown_format_writes_nothing mock_world xml_config initial_state);
    [constructor; [left; reflexivity | constructor]
    | discriminate | discriminate | discriminate].
Defined.

(** X13: when the output file cannot be opened, the run stops there: the
    exception reaches [main], which prints it and exits with code 1; no
    file has changed, the summary is not printed and the log has no record
    of a save. *)
Theorem write_failure_is_fatal world config st e :
  let subreddits := Config.subreddits (Config.scraping config) in
  let filename := Config.filename (Config.output config) in
  let all := concat (map (community_posts world config) subreddits) in
  World.config_file world "config.json" = Some (Ok config) ->
  World.authenticate world (Config.reddit_api config) = None ->
  Forall (fun c => handled (community_error world config c)) subreddits ->
  all <> [] ->
  Config.format (Config.output config) = "json" ->
  World.open_for_writing world filename = Some e ->
  e <> KeyboardInterrupt ->
  exists final,
    main world st = (Raise (SystemExit 1), final)
    /\ State.files final = State.files st
    /\ State.stdout final = State.stdout st ++ [OutError e]
    /\ State.log final
       = State.log st
         ++ [(INFO, MsgStarting)]
         ++ concat (map (community_log world config) subreddits).
Proof.
  intros subreddits filename all Hc Ha Hh Hne Hfmt Hopen He.
  subst subreddits filename all.
  rewrite (main_after_init _ _ _ Hc Ha).
  start_run world config st Hh.
  rewrite bool_decide_true by done. rewrite Hopen.
  exists (with_stdout
            (with_log (with_log st [(INFO, MsgStarting)])
               (concat (map (community_log world config)
                          (Config.subreddits (Config.scraping config)))))
            [OutError e]).
  split; [by destruct e |]. simpl.
  split; [done |]. split; [done |]. by rewrite <- !app_assoc.
Qed.

Lemma write_failure_is_fatal_witness :
  exists final,
    main readonly_world initial_state = (Raise (SystemExit 1), final)
    /\ State.files final = State.files initial_state
    /\ State.stdout final = State.stdout initial_state ++ [OutError OSError]
    /\ State.log final
       = State.log initial_state
         ++ [(INFO, MsgStarting)]
         ++ concat (map (community_log readonly_world test_config)
                      ["test_subreddit"]).
Proof.
  apply (write_failure_is_fatal readonly_world test_config initial_state
           OSError);
    [reflexivity | reflexivity | | discriminate | reflexivity | reflexivity
    | discriminate].
  constructor; [left; reflexivity | constructor].
Defined.

(** ** Unhandled exceptions and start-up: further properties *)

(** X14: when the listing of a community raises an exception that
    [scrape_subreddit] does not handle, after communities that were
    scraped, the run is abandoned: the later communities are not
    requested, the posts already collected are discarded, no file is
    written, and [main] prints one line: on a keyboard interrupt it
    returns normally, on any other exception it exits with code 1. *)
Theorem unhandled_error_discards_everything
    world config st before c after e :
  World.config_file world "config.json" = Some (Ok config) ->
  World.authenticate world (Config.reddit_api config) = None ->
  Config.subreddits (Config.scraping config) = before ++ c :: after ->
  Forall (fun c => handled (community_error world config c)) before ->
  unhandled (community_error world config c) e ->
  exists final,
    main world st
    = (if is_Exception e then Raise (SystemExit 1) else Ok tt, final)
    /\ State.files final = State.files st
    /\ State.stdout final
       = State.stdout st
         ++ [if is_Exception e then OutError e else OutInterrupted]
    /\ State.log final
       = State.log st
         ++ [(INFO, MsgStarting)]
         ++ concat (map (community_log world config) before)
         ++ [(INFO, MsgScraping c)].
Proof.
  intros Hc Ha Hsubs Hb Hun.
  rewrite (main_after_init _ _ _ Hc Ha), run_unfold.
  unfold scrape_all_subreddits. cbv zeta. rewrite Hsubs.
  rewrite (scrape_all_loop_abort _ _ _ _ _ _ _ _ Hb Hun).
  exists (with_stdout
            (with_log (with_log st [(INFO, MsgStarting)])
               (concat (map (community_log world config) before)
                ++ [(INFO, MsgScraping c)]))
            [if is_Exception e then OutError e else OutInterrupted]).
  split; [by destruct e |]. simpl.
  split; [done |]. split; [done |]. by rewrite <- !app_assoc.
Qed.

Lemma unhandled_error_discards_everything_witness :
  exists final,
    main (second_fails_world KeyboardInterrupt) initial_state = (Ok tt, final)
    /\ State.files final = State.files initial_state
    /\ State.stdout final = State.stdout initial_state ++ [OutInterrupted]
    /\ State.log final
       = State.log initial_state
         ++ [(INFO, MsgStarting)]
         ++ concat (map (community_log (second_fails_world KeyboardInterrupt)
                           two_subreddits_config) ["first"])
         ++ [(INFO, MsgScraping "second")].
Proof.
  apply (unhandled_error_discards_everything
           (second_fails_world KeyboardInterrupt) two_subreddits_config
           initial_state ["first"] "second" [] KeyboardInterrupt);
    [reflexivity | reflexivity | reflexivity | | ].
  - constructor; [left; reflexivity | constructor].
  - split; [reflexivity | discriminate].
Defined.

Example posts_of_first_community_are_discarded :
  community_posts (second_fails_world RequestException) two_subreddits_config
    "first"
  = [post_data "first" mock_submission1 None]
  /\ main (second_fails_world RequestException) initial_state
     = (Raise (SystemExit 1),
        State.mk
          [(INFO, MsgStarting); (INFO, MsgScraping "first");
           (INFO, MsgFound 1 "first"); (INFO, MsgScraping "second")]
          [OutError RequestException] ∅).
Proof. split; reflexivity. Qed.

(** X15: a fatal start-up error ends the process before anything is
    logged, requested or written. A missing configuration file makes
    [main] print the error and exit with code 1, whatever the
    credentials; rejected credentials make the constructor print its own
    message and exit with code 1, and [main] prints nothing more. *)
Theorem fatal_start_up_error world st :
  (World.config_file world "config.json" = None ->
   main world st
   = (Raise (SystemExit 1), with_stdout st [OutError FileNotFoundError]))
  /\ (forall config,
        World.config_file world "config.json" = Some (Ok config) ->
        World.authenticate world (Config.reddit_api config)
        = Some OAuthException ->
        main world st
        = (Raise (SystemExit 1),
           with_stdout st [OutAuthFailed OAuthException])).
Proof.
  split.
  - intros Hc. unfold main, __init__, _load_config.
    by rewrite !bind_eq, Hc.
  - intros config Hc Ha.
    unfold main, __init__, _load_config, _initialize_reddit.
    rewrite !bind_eq, Hc. simpl. by rewrite bind_eq, Ha.
Qed.

Lemma fatal_start_up_error_witness :
  main missing_config_world initial_state
  = (Raise (SystemExit 1),
     with_stdout initial_state [OutError FileNotFoundError])
  /\ main rejected_credentials_world initial_state
     = (Raise (SystemExit 1),
        with_stdout initial_state [OutAuthFailed OAuthException]).
Proof.
  split.
  - apply (proj1 (fatal_start_up_error missing_config_world initial_state)).
    reflexivity.
  - apply (proj2 (fatal_start_up_error rejected_credentials_world
                    initial_state) test_config);
      reflexivity.
Defined.

(** ** Logging and slicing: further properties *)

Lemma error_names_community_log world config c :
  error_names (community_log world config c)
  = if failed world config c then [c] else [].
Proof.
  unfold community_log, failed.
  by destruct (community_error world config c).
Qed.

Lemma error_names_app r1 r2 :
  error_names (r1 ++ r2) = error_names r1 ++ error_names r2.
Proof. apply omap_app. Qed.

Lemma error_names_concat world config subreddits :
  error_names (concat (map (community_log world config) subreddits))
  = List.filter (failed world config) subreddits.
Proof.
  induction subreddits as [| c subreddits IH]; [done |].
  cbn [map concat List.filter].
  rewrite error_names_app, error_names_community_log, IH.
  by destruct (failed world config c).
Qed.

(** X16: in a run that handles every failure, the error records of the
    log name, in configured order and once per occurrence in the
    configuration, exactly the communities whose listing raised. *)
Theorem error_records_name_the_failed_communities world config st :
  let subreddits := Config.subreddits (Config.scraping config) in
  Forall (fun c => handled (community_error world config c)) subreddits ->
  exists all records,
    scrape_all_subreddits world config st = (Ok all, with_log st records)
    /\ error_names records = List.filter (failed world config) subreddits.
Proof.
  intros subreddits Hh. eexists _, _.
  split; [by apply scrape_all_subreddits_ok |].
  apply error_names_concat.
Qed.

Lemma error_records_name_the_failed_communities_witness :
  exists all records,
    scrape_all_subreddits failing_world test_config initial_state
    = (Ok all, with_log initial_state records)
    /\ error_names records
       = List.filter (failed failing_world test_config) ["test_subreddit"].
Proof.
  apply (error_records_name_the_failed_communities failing_world test_config
           initial_state).
  constructor; [right; reflexivity | constructor].
Defined.

(** X17: a negative [max_comments] does not limit the number of comments:
    it drops the last [-max_comments] entries of the forest and keeps the
    body-bearing ones among all the others. *)
Theorem negative_max_drops_the_last_entries config submission forest :
  let max_comments := Config.max_comments (Config.output config) in
  Submission.comments submission = Ok forest ->
  max_comments < 0 ->
  _get_top_comments config submission
  = Ok (omap curated
          (take (length forest - Z.to_nat (- max_comments)) forest)).
Proof.
  intros max_comments Hf Hn.
  rewrite (get_top_comments_eq _ _ _ Hf). fold max_comments.
  unfold slice_to. destruct (Z.leb_spec 0 max_comments); [lia |].
  do 3 f_equal. lia.
Qed.

Lemma negative_max_drops_the_last_entries_witness :
  _get_top_comments negative_max_config commented_submission
  = Ok (omap curated
          (take (length [mock_comment1; mock_comment2] - Z.to_nat (- -1))
             [mock_comment1; mock_comment2])).
Proof.
  apply (negative_max_drops_the_last_entries negative_max_config
           commented_submission [mock_comment1; mock_comment2]);
    [reflexivity | simpl; lia].
Defined.
